(** * go-bittrex: request construction and envelope decoding

    A shallow embedding of [bittrex.go].  Every exported method of the
    [bittrex] type is one round trip: it builds a resource path, hands it to
    [client.do], decodes the two-layer JSON envelope of the answer and returns
    a typed payload together with an [error].

    The Go packages the file imports ([strings], [fmt], [errors],
    [encoding/json]) are modelled in modules of the same name, to the extent
    the methods use them.  The method [client.do], the envelope type
    [jsonResponse] and the payload types are declared in other files of the
    package; they appear here as parameters or as definitions marked
    "Modelled from the spec".

    A Go [string] is a [string] of bytes, and a Go [int] is a [Z]: the
    methods compare and print their counts and depths and never compute
    with them, so nothing can overflow.  A method is a computation in the
    state monad of the wire, the list of requests sent so far. *)

From Stdlib Require Import ZArith List String Ascii Bool Lia.
From Stdlib Require Import Decimal DecimalString DecimalZ.
From ExtLib Require Import Structures.Monad Structures.MonadState.
From ExtLib Require Import Data.Monads.StateMonad.
Import ListNotations.
Import MonadNotation.

#[local] Set Warnings "-register-all".

Local Open Scope Z_scope.
Local Open Scope string_scope.
Local Open Scope monad_scope.

(** ** Package [strings] *)

Module strings.

(** [unicode.ToUpper] on one byte below 0x80: the letters a..z move to
    A..Z, every other byte stays. *)
Definition upper_byte (c : ascii) : ascii :=
  let n := nat_of_ascii c in
  if (Nat.leb 97 n && Nat.leb n 122)%bool then ascii_of_nat (n - 32) else c.

(** The byte-wise upper case. *)
Fixpoint upperASCII (s : string) : string :=
  match s with
  | EmptyString => EmptyString
  | String c s' => String (upper_byte c) (upperASCII s')
  end.

(** Every byte is below [utf8.RuneSelf], 0x80. *)
Fixpoint isASCII (s : string) : bool :=
  match s with
  | EmptyString => true
  | String c s' => Nat.ltb (nat_of_ascii c) 128 && isASCII s'
  end.

(** [strings.ToUpper].  Go's function first scans the string: when every
    byte is below 0x80 the result is the byte-wise upper case; otherwise it
    is [strings.Map(unicode.ToUpper, s)], which decodes UTF-8 and looks
    each rune up in the Unicode tables.  Those tables are not part of the
    package: what [Map(unicode.ToUpper, .)] gives on a string that is not
    ASCII is the parameter [mapped]. *)
Definition ToUpper (mapped : string -> string) (s : string) : string :=
  if isASCII s then upperASCII s else mapped s.
Arguments ToUpper : simpl never.

(** [strings.HasPrefix] and [strings.Contains], used to observe resource
    paths. *)
Definition HasPrefix (s pre : string) : bool := String.prefix pre s.

Fixpoint Contains (s substr : string) : bool :=
  if String.prefix substr s then true
  else match s with
       | EmptyString => false
       | String _ s' => Contains s' substr
       end.

(** A string none of whose bytes is [c]. *)
Fixpoint avoids (c : ascii) (s : string) : bool :=
  match s with
  | EmptyString => true
  | String a s' => negb (Ascii.eqb c a) && avoids c s'
  end.

End strings.
Import strings(avoids).

(** ** Package [fmt] *)

Module fmt.

(** The verb [%d] applied to an [int]: the decimal digits, with a leading
    minus sign for a negative number. *)
Definition d (n : Z) : string := NilEmpty.string_of_int (Z.to_int n).

End fmt.

(** ** Errors *)

(** The dynamic types an [error] returned by a method can have. *)
Inductive error : Type :=
| errorString (s : string)                    (* errors.New(s) *)
| SyntaxError (msg : string)                  (* *json.SyntaxError *)
| UnmarshalTypeError (Value Type_ : string)   (* *json.UnmarshalTypeError *)
| clientError (msg : string).                 (* whatever client.do reports *)

Module errors.
Definition New (text : string) : option error := Some (errorString text).
End errors.

(** The method [Error()] of the interface. *)
Definition Error (e : error) : string :=
  match e with
  | errorString s => s
  | SyntaxError msg => msg
  | UnmarshalTypeError v t =>
      "json: cannot unmarshal " ++ v ++ " into Go value of type " ++ t
  | clientError msg => msg
  end.

(** ** Package [encoding/json] *)

Module json.

(** A JSON document after lexing.  Objects keep their members in the order
    of the text, duplicates included; a number keeps its literal. *)
Inductive value : Type :=
| Null
| Bool (b : bool)
| Number (literal : string)
| Str (s : string)
| Array (elems : list value)
| Object (members : list (string * value)).

(** A byte slice as [Unmarshal] sees it: the text of a well-formed document,
    or bytes that [checkValid] rejects, with the message of its
    [SyntaxError].  The empty (nil) slice is of the second kind. *)
Inductive bytes : Type :=
| Invalid (msg : string)
| Text (doc : value).

Definition nil : bytes := Invalid "unexpected end of JSON input".

(** [json.RawMessage] is a byte slice. *)
Definition RawMessage : Type := bytes.

(** The word an [UnmarshalTypeError] uses for the offending JSON value. *)
Definition describe (j : value) : string :=
  match j with
  | Null => "null"
  | Bool _ => "bool"
  | Number _ => "number"
  | Str _ => "string"
  | Array _ => "array"
  | Object _ => "object"
  end.

(** What the decoder needs to know of a Go type: its zero value, its name,
    and how a document is stored into a variable of the type
    ([decodeState.value]).  A mismatch between document and type does not
    stop the decoder: the value is skipped, the error is kept, and decoding
    goes on. *)
Class Unmarshaler (T : Type) : Type := {
  zero : T;
  typeName : string;
  store : value -> T -> T * option error
}.

(** [decodeState.saveError]: only the earliest error is kept. *)
Definition saveError (saved later : option error) : option error :=
  match saved with
  | Some _ => saved
  | None => later
  end.

#[global] Instance Unmarshaler_bool : Unmarshaler bool := {
  zero := false;
  typeName := "bool";
  store j v :=
    match j with
    | Bool b => (b, None)
    | Null => (v, None)
    | _ => (v, Some (UnmarshalTypeError (describe j) "bool"))
    end
}.

#[global] Instance Unmarshaler_string : Unmarshaler string := {
  zero := "";
  typeName := "string";
  store j v :=
    match j with
    | Str s => (s, None)
    | Null => (v, None)
    | _ => (v, Some (UnmarshalTypeError (describe j) "string"))
    end
}.

(** [RawMessage.UnmarshalJSON] copies the text of the value, whatever it
    is, the literal [null] included. *)
#[global] Instance Unmarshaler_RawMessage : Unmarshaler RawMessage := {
  zero := nil;
  typeName := "json.RawMessage";
  store j _ := (Text j, None)
}.

(** Elements of an array, each stored into a fresh element of the slice
    (the methods only ever decode into a nil slice). *)
Fixpoint elements {T} `{Unmarshaler T} (l : list value)
  : list T * option error :=
  match l with
  | [] => ([], None)
  | j :: l' =>
      let '(x, e) := store j zero in
      let '(xs, e') := elements l' in
      (x :: xs, saveError e e')
  end.

(** The elements as they are after decoding, in the order of the array. *)
Definition decoded {T} `{Unmarshaler T} (l : list value) : list T :=
  map (fun j => fst (store j zero)) l.

(** Slices.  [null] resets the slice to nil; nil and the empty slice are
    both the empty list here. *)
#[global] Instance Unmarshaler_slice {T} `{Unmarshaler T}
  : Unmarshaler (list T) := {
  zero := [];
  typeName := "[]" ++ typeName (T := T);
  store j v :=
    match j with
    | Array l => elements l
    | Null => ([], None)
    | _ => (v, Some (UnmarshalTypeError (describe j)
                       ("[]" ++ typeName (T := T))))
    end
}.

(** Members of an object stored one after the other into a struct;
    [field] stores one member and ignores a key that names no field. *)
Fixpoint members {T} (field : string -> value -> T -> T * option error)
  (kvs : list (string * value)) (v : T) : T * option error :=
  match kvs with
  | [] => (v, None)
  | (k, j) :: kvs' =>
      let '(v1, e) := field k j v in
      let '(v2, e') := members field kvs' v1 in
      (v2, saveError e e')
  end.

(** A key selects the field of the same name, compared without regard to
    (ASCII) letter case. *)
Definition names (key field : string) : bool :=
  String.eqb (strings.upperASCII key) (strings.upperASCII field).

(** [json.Unmarshal(data, &v)]: nothing is stored unless the whole text is
    well formed. *)
Definition Unmarshal {T} `{Unmarshaler T} (data : bytes) (v : T)
  : T * option error :=
  match data with
  | Invalid msg => (v, Some (SyntaxError msg))
  | Text j => store j v
  end.

End json.
Import json(Unmarshaler, zero, typeName, store).

(** A transformation [g] of a struct is steady on the field [p] when it
    leaves the field as it was, or sets it to a value that does not depend
    on what the struct held before. *)
Definition steady {T A} (p : T -> A) (g : T -> T) : Prop :=
  (forall v, p (g v) = p v) \/ (exists c, forall v, p (g v) = c).

(** Maps with string keys ([map[string]V]), as the list of their entries.
    Storing an object member replaces the entry of the same key. *)
Inductive gomap (V : Type) : Type :=
| Map (entries : list (string * V)).
Arguments Map {V} entries.

Fixpoint assign {V} (k : string) (x : V) (m : list (string * V))
  : list (string * V) :=
  match m with
  | [] => [(k, x)]
  | (k', y) :: m' =>
      if String.eqb k k' then (k, x) :: m' else (k', y) :: assign k x m'
  end.

Fixpoint entries_of {V} `{Unmarshaler V} (kvs : list (string * json.value))
  (m : list (string * V)) : list (string * V) * option error :=
  match kvs with
  | [] => (m, None)
  | (k, j) :: kvs' =>
      let '(x, e) := store j zero in
      let '(m', e') := entries_of kvs' (assign k x m) in
      (m', json.saveError e e')
  end.

#[export] Instance Unmarshaler_map {V} `{Unmarshaler V}
  : Unmarshaler (gomap V) := {
  zero := Map [];
  typeName := "map[string]" ++ typeName (T := V);
  store j v :=
    match j with
    | json.Object kvs =>
        let '(Map m) := v in
        let '(m', e) := entries_of kvs m in (Map m', e)
    | json.Null => (Map [], None)
    | _ => (v, Some (UnmarshalTypeError (json.describe j)
                       ("map[string]" ++ typeName (T := V))))
    end
}.

(** ** The client *)

Module Client.

(** One call of [client.do]: the four arguments it is given. *)
Record Request : Type := {
  method : string;
  ressource : string;
  payload : string;
  authNeeded : bool
}.

(** Modelled from the spec: the type [client] and its method [do] are
    declared in another file of the package.  A client
    holds the credentials and a transport; [do] sends one request and gives
    back the body of the answer, or an error.  What the exchange answers is
    not the client's to decide, so the transport is any function. *)
Record t : Type := {
  apiKey : string;
  apiSecret : string;
  transport : Request -> json.bytes * option error
}.

(** The wire: every request sent so far, oldest first. *)
Definition wire : Type := list Request.

Definition do (c : t) (method ressource payload : string) (authNeeded : bool)
  : state wire (json.bytes * option error) :=
  let req := {| method := method; ressource := ressource;
                payload := payload; authNeeded := authNeeded |} in
  sent <- get ;;
  put (sent ++ [req])%list ;;
  ret (transport c req).

End Client.

(** ** Types of the package *)

(** bittrex represent a bittrex client *)
Record bittrex : Type := { client : Client.t }.

(** Modelled from the spec: the envelope [jsonResponse] is declared in
    another file of the package.  The spec gives it as
    [{success: boolean, message: string, result: opaque-JSON}]; the methods
    read its fields [Success], [Message] and [Result]. *)
Record jsonResponse : Type := {
  Success : bool;
  Message : string;
  Result : json.RawMessage
}.

Definition jsonResponse_field (k : string) (j : json.value) (r : jsonResponse)
  : jsonResponse * option error :=
  if json.names k "success" then
    let '(b, e) := store j (Success r) in
    ({| Success := b; Message := Message r; Result := Result r |}, e)
  else if json.names k "message" then
    let '(s, e) := store j (Message r) in
    ({| Success := Success r; Message := s; Result := Result r |}, e)
  else if json.names k "result" then
    let '(m, e) := store j (Result r) in
    ({| Success := Success r; Message := Message r; Result := m |}, e)
  else (r, None).

#[export] Instance Unmarshaler_jsonResponse : Unmarshaler jsonResponse := {
  zero := {| Success := false; Message := ""; Result := json.nil |};
  typeName := "bittrex.jsonResponse";
  store j v :=
    match j with
    | json.Object kvs => json.members jsonResponse_field kvs v
    | json.Null => (v, None)
    | _ => (v, Some (UnmarshalTypeError (json.describe j)
                       "bittrex.jsonResponse"))
    end
}.

(** Modelled from the spec: the type [Uuid] is declared in another file of
    the package.  The spec gives it as a single-field wrapper
    [{uuid: s}]; the methods read its field [Id]. *)
Record Uuid : Type := { Id : string }.

Definition Uuid_field (k : string) (j : json.value) (u : Uuid)
  : Uuid * option error :=
  if json.names k "uuid" then
    let '(s, e) := store j (Id u) in ({| Id := s |}, e)
  else (u, None).

#[export] Instance Unmarshaler_Uuid : Unmarshaler Uuid := {
  zero := {| Id := "" |};
  typeName := "bittrex.Uuid";
  store j v :=
    match j with
    | json.Object kvs => json.members Uuid_field kvs v
    | json.Null => (v, None)
    | _ => (v, Some (UnmarshalTypeError (json.describe j) "bittrex.Uuid"))
    end
}.

(** Modelled from the spec: the type [OrderBook] is declared in another file
    of the package.  The spec gives it as
    [{buy: ordered sequence of OrderEntry, sell: ordered sequence of
    OrderEntry}]; the entry type stays a parameter. *)
Record OrderBook (Orderb : Type) : Type := {
  Buy : list Orderb;
  Sell : list Orderb
}.
Arguments Buy {Orderb} _.
Arguments Sell {Orderb} _.

Definition OrderBook_field {Orderb} `{Unmarshaler Orderb}
  (k : string) (j : json.value) (o : OrderBook Orderb)
  : OrderBook Orderb * option error :=
  if json.names k "buy" then
    let '(l, e) := store j (Buy o) in ({| Buy := l; Sell := Sell o |}, e)
  else if json.names k "sell" then
    let '(l, e) := store j (Sell o) in ({| Buy := Buy o; Sell := l |}, e)
  else (o, None).

#[export] Instance Unmarshaler_OrderBook {Orderb} `{Unmarshaler Orderb}
  : Unmarshaler (OrderBook Orderb) := {
  zero := {| Buy := []; Sell := [] |};
  typeName := "bittrex.OrderBook";
  store j v :=
    match j with
    | json.Object kvs => json.members OrderBook_field kvs v
    | json.Null => (v, None)
    | _ => (v, Some (UnmarshalTypeError (json.describe j)
                       "bittrex.OrderBook"))
    end
}.

(** handleErr gets JSON response from Bittrex API en deal with error *)
Definition handleErr (r : jsonResponse) : option error :=
  if negb (Success r) then errors.New (Message r) else None.

(** A method is a computation on the wire. *)
Abbreviation call A := (state Client.wire A) (only parsing).

(** ** Observing a call *)

(** The requests a method puts on an empty wire, what it returns, and the
    answers the transport of the client gives to those requests. *)
Definition sent {A} (m : call A) : list Client.Request := snd (runState m []).
Definition returned {A} (m : call A) : A := fst (runState m []).
Definition answers {A} (b : bittrex) (m : call A)
  : list (json.bytes * option error) :=
  map (Client.transport (client b)) (sent m).

(** The two kinds of request the methods make. *)
Definition GET (ressource : string) (authNeeded : bool) : Client.Request :=
  {| Client.method := "GET"; Client.ressource := ressource;
     Client.payload := ""; Client.authNeeded := authNeeded |}.

(** ** Instances for running the methods *)

(** A stand-in for the Unicode tables, enough to run the methods on ASCII
    identifiers: a string with other bytes is left as it is. *)
Definition no_tables (s : string) : string := s.

(** Quantities counted in units of 1e-8 and printed with eight decimals, the
    way [strconv.FormatFloat(x, 'f', 8, 64)] prints them. *)
Module fixed8.

Definition t : Type := Z.

Fixpoint zeros (n : nat) : string :=
  match n with
  | O => ""
  | S n' => String "0" (zeros n')
  end.

Definition FormatFloat (x : t) (fmt_ : ascii) (prec bitSize : Z) : string :=
  let a := Z.abs x in
  let frac := fmt.d (a mod 100000000) in
  (if (x <? 0)%Z then "-" else "")
    ++ fmt.d (a / 100000000) ++ "."
    ++ zeros (8 - String.length frac) ++ frac.

End fixed8.

(** An order-book entry whose two numbers are kept as [json.Number], the
    literal of the number. *)
Module entry.

Definition Number : Type := string.

Definition store_Number (j : json.value) (v : Number)
  : Number * option error :=
  match j with
  | json.Number lit => (lit, None)
  | json.Null => (v, None)
  | _ => (v, Some (UnmarshalTypeError (json.describe j) "json.Number"))
  end.

Record t : Type := { Quantity : Number; Rate : Number }.

Definition field (k : string) (j : json.value) (e : t) : t * option error :=
  if json.names k "Quantity" then
    let '(n, err) := store_Number j (Quantity e) in
    ({| Quantity := n; Rate := Rate e |}, err)
  else if json.names k "Rate" then
    let '(n, err) := store_Number j (Rate e) in
    ({| Quantity := Quantity e; Rate := n |}, err)
  else (e, None).

Definition unmarshaler : Unmarshaler t := {|
  zero := {| Quantity := ""; Rate := "" |};
  typeName := "entry";
  store j v :=
    match j with
    | json.Object kvs => json.members field kvs v
    | json.Null => (v, None)
    | _ => (v, Some (UnmarshalTypeError (json.describe j) "entry"))
    end
|}.

End entry.

(** A client whose transport answers every request with the same body, and
    the documents used to run the methods. *)
Module sample.

Definition answering (body : json.bytes) : bittrex :=
  {| client := {| Client.apiKey := "key";
                  Client.apiSecret := "secret";
                  Client.transport := fun _ => (body, None) |} |}.

Definition envelope (success : bool) (message : string)
  (result : json.value) : json.bytes :=
  json.Text
    (json.Object
       [("success", json.Bool success);
        ("message", json.Str message);
        ("result", result)]).

Definition identified (uuid : string) : json.bytes :=
  envelope true "" (json.Object [("uuid", json.Str uuid)]).

Definition order (quantity rate : string) : json.value :=
  json.Object
    [("Quantity", json.Number quantity); ("Rate", json.Number rate)].

End sample.

(** A client whose transport fails on every request with the same error. *)
Module outage.

Definition failing (e : error) : bittrex :=
  {| client := {| Client.apiKey := "key";
                  Client.apiSecret := "secret";
                  Client.transport := fun _ => (json.nil, Some e) |} |}.

End outage.

(** ** The methods *)

(** [err != nil] *)
Definition isErr (err : option error) : bool :=
  match err with
  | Some _ => true
  | None => false
  end.


Section Methods.

(** [strings.Map(unicode.ToUpper, s)] on the strings that are not ASCII. *)
Variable MapToUpper : string -> string.

(** [float64] and [strconv.FormatFloat(f, fmt, prec, bitSize)]. *)
Variable float64 : Type.
Variable FormatFloat : float64 -> ascii -> Z -> Z -> string.

(** The payload types, declared in another file of the package, each with the
    way [encoding/json] stores a document into it. *)
Context {Market Ticker MarketSummary Orderb Trade Order : Type}.
Context {Balance Address Withdrawal Deposit : Type}.
Context `{Unmarshaler Market} `{Unmarshaler Ticker}.
Context `{Unmarshaler MarketSummary} `{Unmarshaler Orderb}.
Context `{Unmarshaler Trade} `{Unmarshaler Order}.
Context `{Unmarshaler Balance} `{Unmarshaler Address}.
Context `{Unmarshaler Withdrawal} `{Unmarshaler Deposit}.

(** GetMarkets is used to get the open and available trading markets at
    Bittrex along with other meta data. *)
Definition GetMarkets (b : bittrex) : call (list Market * option error) :=
  let markets : list Market := zero in
  '(r, err) <- Client.do (client b) "GET" "public/getmarkets" "" false ;;
  ret (
    if isErr err then (markets, err) else
    let response : jsonResponse := zero in
    let '(response, err) := json.Unmarshal r response in
    if isErr err then (markets, err) else
    let err := handleErr response in
    if isErr err then (markets, err) else
    let '(markets, err) := json.Unmarshal (Result response) markets in
    (markets, err)).

(** GetTicker is used to get the current ticker values for a market. *)
Definition GetTicker (b : bittrex) (market : string)
  : call (Ticker * option error) :=
  let ticker : Ticker := zero in
  '(r, err) <- Client.do (client b) "GET"
                 ("public/getticker?market=" ++ strings.ToUpper MapToUpper market)
                 "" false ;;
  ret (
    if isErr err then (ticker, err) else
    let response : jsonResponse := zero in
    let '(response, err) := json.Unmarshal r response in
    if isErr err then (ticker, err) else
    let err := handleErr response in
    if isErr err then (ticker, err) else
    let '(ticker, err) := json.Unmarshal (Result response) ticker in
    (ticker, err)).

(** GetMarketSummaries is used to get the last 24 hour summary of all active
    exchanges *)
Definition GetMarketSummaries (b : bittrex)
  : call (list MarketSummary * option error) :=
  let marketSummaries : list MarketSummary := zero in
  '(r, err) <- Client.do (client b) "GET" "public/getmarketsummaries"
                 "" false ;;
  ret (
    if isErr err then (marketSummaries, err) else
    let response : jsonResponse := zero in
    let '(response, err) := json.Unmarshal r response in
    if isErr err then (marketSummaries, err) else
    let err := handleErr response in
    if isErr err then (marketSummaries, err) else
    let '(marketSummaries, err) :=
      json.Unmarshal (Result response) marketSummaries in
    (marketSummaries, err)).

(** GetOrderBook is used to get retrieve the orderbook for a given market
    market: a string literal for the market (ex: BTC-LTC)
    cat: buy, sell or both to identify the type of orderbook to return.
    depth: how deep of an order book to retrieve. Max is 100 *)
Definition GetOrderBook (b : bittrex) (market cat : string) (depth : Z)
  : call (OrderBook Orderb * option error) :=
  let orderBook : OrderBook Orderb := zero in
  let cat :=
    if negb (cat =? "buy") && negb (cat =? "sell") && negb (cat =? "both")
    then "both" else cat in
  let depth := if (depth >? 100)%Z then 100 else depth in
  let depth := if (depth <? 1)%Z then 1 else depth in
  '(r, err) <- Client.do (client b) "GET"
                 ("public/getorderbook?market=" ++ strings.ToUpper MapToUpper market
                    ++ "&type=" ++ cat ++ "&depth=" ++ fmt.d depth)
                 "" false ;;
  ret (
    if isErr err then (orderBook, err) else
    let response : jsonResponse := zero in
    let '(response, err) := json.Unmarshal r response in
    if isErr err then (orderBook, err) else
    let err := handleErr response in
    if isErr err then (orderBook, err) else
    let '(orderBook, err) := json.Unmarshal (Result response) orderBook in
    (orderBook, err)).

(** GetMarketHistory is used to retrieve the latest trades that have occured
    for a specific market.
    mark a string literal for the market (ex: BTC-LTC)
    count a number between 1-100 for the number of entries to return *)
Definition GetMarketHistory (b : bittrex) (market : string) (count : Z)
  : call (list Trade * option error) :=
  let trades : list Trade := zero in
  let count := if (count >? 100)%Z then 100 else count in
  let count := if (count <? 1)%Z then 1 else count in
  '(r, err) <- Client.do (client b) "GET"
                 ("public/getmarkethistory?market=" ++ strings.ToUpper MapToUpper market
                    ++ "&count=" ++ fmt.d count)
                 "" false ;;
  ret (
    if isErr err then (trades, err) else
    let response : jsonResponse := zero in
    let '(response, err) := json.Unmarshal r response in
    if isErr err then (trades, err) else
    let err := handleErr response in
    if isErr err then (trades, err) else
    let '(trades, err) := json.Unmarshal (Result response) trades in
    (trades, err)).

(** BuyLimit is used to place a limited buy order in a specific market. *)
Definition BuyLimit (b : bittrex) (market : string) (quantity rate : float64)
  : call (string * option error) :=
  let uuid : string := zero in
  '(r, err) <- Client.do (client b) "GET"
                 ("market/buylimit?market=" ++ market
                    ++ "&quantity=" ++ FormatFloat quantity "f" 8 64
                    ++ "&rate=" ++ FormatFloat rate "f" 8 64)
                 "" true ;;
  ret (
    if isErr err then (uuid, err) else
    let response : jsonResponse := zero in
    let '(response, err) := json.Unmarshal r response in
    if isErr err then (uuid, err) else
    let err := handleErr response in
    if isErr err then (uuid, err) else
    let u : Uuid := zero in
    let '(u, err) := json.Unmarshal (Result response) u in
    let uuid := Id u in
    (uuid, err)).

(** BuyMarket is used to place a market buy order in a spacific market. *)
Definition BuyMarket (b : bittrex) (market : string) (quantity : float64)
  : call (string * option error) :=
  let uuid : string := zero in
  '(r, err) <- Client.do (client b) "GET"
                 ("market/buymarket?market=" ++ market
                    ++ "&quantity=" ++ FormatFloat quantity "f" 8 64)
                 "" true ;;
  ret (
    if isErr err then (uuid, err) else
    let response : jsonResponse := zero in
    let '(response, err) := json.Unmarshal r response in
    if isErr err then (uuid, err) else
    let err := handleErr response in
    if isErr err then (uuid, err) else
    let u : Uuid := zero in
    let '(u, err) := json.Unmarshal (Result response) u in
    let uuid := Id u in
    (uuid, err)).

(** SellLimit is used to place a limited sell order in a specific market. *)
Definition SellLimit (b : bittrex) (market : string) (quantity rate : float64)
  : call (string * option error) :=
  let uuid : string := zero in
  '(r, err) <- Client.do (client b) "GET"
                 ("market/selllimit?market=" ++ market
                    ++ "&quantity=" ++ FormatFloat quantity "f" 8 64
                    ++ "&rate=" ++ FormatFloat rate "f" 8 64)
                 "" true ;;
  ret (
    if isErr err then (uuid, err) else
    let response : jsonResponse := zero in
    let '(response, err) := json.Unmarshal r response in
    if isErr err then (uuid, err) else
    let err := handleErr response in
    if isErr err then (uuid, err) else
    let u : Uuid := zero in
    let '(u, err) := json.Unmarshal (Result response) u in
    let uuid := Id u in
    (uuid, err)).

(** SellMarket is used to place a market sell order in a specific market. *)
Definition SellMarket (b : bittrex) (market : string) (quantity : float64)
  : call (string * option error) :=
  let uuid : string := zero in
  '(r, err) <- Client.do (client b) "GET"
                 ("market/selllimit?market=" ++ market
                    ++ "&quantity=" ++ FormatFloat quantity "f" 8 64)
                 "" true ;;
  ret (
    if isErr err then (uuid, err) else
    let response : jsonResponse := zero in
    let '(response, err) := json.Unmarshal r response in
    if isErr err then (uuid, err) else
    let err := handleErr response in
    if isErr err then (uuid, err) else
    let u : Uuid := zero in
    let '(u, err) := json.Unmarshal (Result response) u in
    let uuid := Id u in
    (uuid, err)).

(** CancelOrder is used to cancel a buy or sell order. *)
Definition CancelOrder (b : bittrex) (orderID : string)
  : call (option error) :=
  '(r, err) <- Client.do (client b) "GET" ("market/cancel?uuid=" ++ orderID)
                 "" true ;;
  ret (
    if isErr err then err else
    let response : jsonResponse := zero in
    let '(response, err) := json.Unmarshal r response in
    if isErr err then err else
    let err := handleErr response in
    err).

(** GetOpenOrders returns orders that you currently have opened.
    If market is set to "all", GetOpenOrders return all orders
    If market is set to a specific order, GetOpenOrders return orders for
    this market *)
Definition GetOpenOrders (b : bittrex) (market : string)
  : call (list Order * option error) :=
  let openOrders : list Order := zero in
  let ressource := "market/getopenorders" in
  let ressource :=
    if negb (market =? "all")
    then ressource ++ "?market=" ++ strings.ToUpper MapToUpper market
    else ressource in
  '(r, err) <- Client.do (client b) "GET" ressource "" true ;;
  ret (
    if isErr err then (openOrders, err) else
    let response : jsonResponse := zero in
    let '(response, err) := json.Unmarshal r response in
    if isErr err then (openOrders, err) else
    let '(response, err) := json.Unmarshal r response in
    if isErr err then (openOrders, err) else
    let '(openOrders, err) := json.Unmarshal (Result response) openOrders in
    (openOrders, err)).

(** GetBalances is used to retrieve all balances from your account *)
Definition GetBalances (b : bittrex)
  : call (gomap Balance * option error) :=
  let balances : gomap Balance := zero in
  '(r, err) <- Client.do (client b) "GET" "account/getbalances" "" true ;;
  ret (
    if isErr err then (balances, err) else
    let response : jsonResponse := zero in
    let '(response, err) := json.Unmarshal r response in
    if isErr err then (balances, err) else
    let err := handleErr response in
    if isErr err then (balances, err) else
    let '(balances, err) := json.Unmarshal (Result response) balances in
    (balances, err)).

(** Getbalance is used to retrieve the balance from your account for a
    specific currency.
    currency: a string literal for the currency (ex: LTC) *)
Definition GetBalance (b : bittrex) (currency : string)
  : call (Balance * option error) :=
  let balance : Balance := zero in
  '(r, err) <- Client.do (client b) "GET"
                 ("account/getbalance?currency=" ++ strings.ToUpper MapToUpper currency)
                 "" true ;;
  ret (
    if isErr err then (balance, err) else
    let response : jsonResponse := zero in
    let '(response, err) := json.Unmarshal r response in
    if isErr err then (balance, err) else
    let err := handleErr response in
    if isErr err then (balance, err) else
    let '(balance, err) := json.Unmarshal (Result response) balance in
    (balance, err)).

(** GetDepositAddress is sed to generate or retrieve an address for a
    specific currency.
    currency a string literal for the currency (ie. BTC) *)
Definition GetDepositAddress (b : bittrex) (currency : string)
  : call (Address * option error) :=
  let address : Address := zero in
  '(r, err) <- Client.do (client b) "GET"
                 ("account/getdepositaddress?currency="
                    ++ strings.ToUpper MapToUpper currency)
                 "" true ;;
  ret (
    if isErr err then (address, err) else
    let response : jsonResponse := zero in
    let '(response, err) := json.Unmarshal r response in
    if isErr err then (address, err) else
    let err := handleErr response in
    if isErr err then (address, err) else
    let '(address, err) := json.Unmarshal (Result response) address in
    (address, err)).

(** Withdraw is used to withdraw funds from your account.
    address string the address where to send the funds.
    currency string literal for the currency (ie. BTC)
    quantity float the quantity of coins to withdraw *)
Definition Withdraw (b : bittrex) (address currency : string)
  (quantity : float64) : call (string * option error) :=
  let withdrawUuid : string := zero in
  '(r, err) <- Client.do (client b) "GET"
                 ("account/withdraw?currency=" ++ strings.ToUpper MapToUpper currency
                    ++ "&quantity=" ++ FormatFloat quantity "f" 8 64
                    ++ "&address=" ++ address)
                 "" true ;;
  ret (
    if isErr err then (withdrawUuid, err) else
    let response : jsonResponse := zero in
    let '(response, err) := json.Unmarshal r response in
    if isErr err then (withdrawUuid, err) else
    let err := handleErr response in
    if isErr err then (withdrawUuid, err) else
    let u : Uuid := zero in
    let '(u, err) := json.Unmarshal (Result response) u in
    let withdrawUuid := Id u in
    (withdrawUuid, err)).

(** GetOrderHistory used to retrieve your order history.
    market string literal for the market (ie. BTC-LTC). If set to "all",
    will return for all market
    count int : the number of records to return. Is set to 0, will return
    max history *)
Definition GetOrderHistory (b : bittrex) (market : string) (count : Z)
  : call (list Order * option error) :=
  let orders : list Order := zero in
  let ressource := "account/getorderhistory" in
  let ressource :=
    if negb (count =? 0)%Z || negb (market =? "all")
    then ressource ++ "?" else ressource in
  let ressource :=
    if negb (count =? 0)%Z
    then ressource ++ ("count=" ++ fmt.d count ++ "&") else ressource in
  let ressource :=
    if negb (market =? "all")
    then ressource ++ "market=" ++ market else ressource in
  '(r, err) <- Client.do (client b) "GET" ressource "" true ;;
  ret (
    if isErr err then (orders, err) else
    let response : jsonResponse := zero in
    let '(response, err) := json.Unmarshal r response in
    if isErr err then (orders, err) else
    let err := handleErr response in
    if isErr err then (orders, err) else
    let '(orders, err) := json.Unmarshal (Result response) orders in
    (orders, err)).

(** GetWithdrawalHistory is used to retrieve your withdrawal history
    currency string a string literal for the currency (ie. BTC). If set to
    "all", will return for all currencies
    count int the number of records to return. Is set to 0 will return the
    max set. *)
Definition GetWithdrawalHistory (b : bittrex) (currency : string) (count : Z)
  : call (list Withdrawal * option error) :=
  let withdrawals : list Withdrawal := zero in
  let ressource := "account/getwithdrawalhistory" in
  let ressource :=
    if negb (count =? 0)%Z || negb (currency =? "all")
    then ressource ++ "?" else ressource in
  let ressource :=
    if negb (count =? 0)%Z
    then ressource ++ ("count=" ++ fmt.d count ++ "&") else ressource in
  let ressource :=
    if negb (currency =? "all")
    then ressource ++ "currency=" ++ currency else ressource in
  '(r, err) <- Client.do (client b) "GET" ressource "" true ;;
  ret (
    if isErr err then (withdrawals, err) else
    let response : jsonResponse := zero in
    let '(response, err) := json.Unmarshal r response in
    if isErr err then (withdrawals, err) else
    let err := handleErr response in
    if isErr err then (withdrawals, err) else
    let '(withdrawals, err) := json.Unmarshal (Result response) withdrawals in
    (withdrawals, err)).

(** GetDepositHistory is used to retrieve your deposit history
    currency string a string literal for the currency (ie. BTC). If set to
    "all", will return for all currencies
    count int the number of records to return. Is set to 0 will return the
    max set. *)
Definition GetDepositHistory (b : bittrex) (currency : string) (count : Z)
  : call (list Deposit * option error) :=
  let deposits : list Deposit := zero in
  let ressource := "account/getdeposithistory" in
  let ressource :=
    if negb (count =? 0)%Z || negb (currency =? "all")
    then ressource ++ "?" else ressource in
  let ressource :=
    if negb (count =? 0)%Z
    then ressource ++ ("count=" ++ fmt.d count ++ "&") else ressource in
  let ressource :=
    if negb (currency =? "all")
    then ressource ++ "currency=" ++ currency else ressource in
  '(r, err) <- Client.do (client b) "GET" ressource "" true ;;
  ret (
    if isErr err then (deposits, err) else
    let response : jsonResponse := zero in
    let '(response, err) := json.Unmarshal r response in
    if isErr err then (deposits, err) else
    let err := handleErr response in
    if isErr err then (deposits, err) else
    let '(deposits, err) := json.Unmarshal (Result response) deposits in
    (deposits, err)).


(** ** The methods as one family *)

(** Every method with its arguments, indexed by the type of its payload.
    [CancelOrder] has no payload. *)
Inductive operation : Type -> Type :=
| op_GetMarkets : operation (list Market)
| op_GetTicker (market : string) : operation Ticker
| op_GetMarketSummaries : operation (list MarketSummary)
| op_GetOrderBook (market cat : string) (depth : Z)
  : operation (OrderBook Orderb)
| op_GetMarketHistory (market : string) (count : Z) : operation (list Trade)
| op_BuyLimit (market : string) (quantity rate : float64) : operation string
| op_BuyMarket (market : string) (quantity : float64) : operation string
| op_SellLimit (market : string) (quantity rate : float64) : operation string
| op_SellMarket (market : string) (quantity : float64) : operation string
| op_CancelOrder (orderID : string) : operation unit
| op_GetOpenOrders (market : string) : operation (list Order)
| op_GetBalances : operation (gomap Balance)
| op_GetBalance (currency : string) : operation Balance
| op_GetDepositAddress (currency : string) : operation Address
| op_Withdraw (address currency : string) (quantity : float64)
  : operation string
| op_GetOrderHistory (market : string) (count : Z) : operation (list Order)
| op_GetWithdrawalHistory (currency : string) (count : Z)
  : operation (list Withdrawal)
| op_GetDepositHistory (currency : string) (count : Z)
  : operation (list Deposit).

Definition perform (b : bittrex) {T} (o : operation T)
  : call (T * option error) :=
  match o with
  | op_GetMarkets => GetMarkets b
  | op_GetTicker market => GetTicker b market
  | op_GetMarketSummaries => GetMarketSummaries b
  | op_GetOrderBook market cat depth => GetOrderBook b market cat depth
  | op_GetMarketHistory market count => GetMarketHistory b market count
  | op_BuyLimit market quantity rate => BuyLimit b market quantity rate
  | op_BuyMarket market quantity => BuyMarket b market quantity
  | op_SellLimit market quantity rate => SellLimit b market quantity rate
  | op_SellMarket market quantity => SellMarket b market quantity
  | op_CancelOrder orderID => err <- CancelOrder b orderID ;; ret (tt, err)
  | op_GetOpenOrders market => GetOpenOrders b market
  | op_GetBalances => GetBalances b
  | op_GetBalance currency => GetBalance b currency
  | op_GetDepositAddress currency => GetDepositAddress b currency
  | op_Withdraw address currency quantity =>
      Withdraw b address currency quantity
  | op_GetOrderHistory market count => GetOrderHistory b market count
  | op_GetWithdrawalHistory currency count =>
      GetWithdrawalHistory b currency count
  | op_GetDepositHistory currency count => GetDepositHistory b currency count
  end.

(** The value of the named result before anything is stored into it. *)
Definition undecoded {T} (o : operation T) : T :=
  match o with
  | op_GetMarkets => zero
  | op_GetTicker _ => zero
  | op_GetMarketSummaries => zero
  | op_GetOrderBook _ _ _ => zero
  | op_GetMarketHistory _ _ => zero
  | op_BuyLimit _ _ _ => zero
  | op_BuyMarket _ _ => zero
  | op_SellLimit _ _ _ => zero
  | op_SellMarket _ _ => zero
  | op_CancelOrder _ => tt
  | op_GetOpenOrders _ => zero
  | op_GetBalances => zero
  | op_GetBalance _ => zero
  | op_GetDepositAddress _ => zero
  | op_Withdraw _ _ _ => zero
  | op_GetOrderHistory _ _ => zero
  | op_GetWithdrawalHistory _ _ => zero
  | op_GetDepositHistory _ _ => zero
  end.

(** The methods that pass the envelope to [handleErr]: all but
    [GetOpenOrders]. *)
Definition checks_success {T} (o : operation T) : bool :=
  match o with
  | op_GetOpenOrders _ => false
  | _ => true
  end.

(** The methods that decode a payload: all but [CancelOrder]. *)
Definition has_payload {T} (o : operation T) : bool :=
  match o with
  | op_CancelOrder _ => false
  | _ => true
  end.

(** The order-placement methods and [Withdraw], whose payload is the
    identifier inside a [Uuid]. *)
Inductive placement : Type :=
| place_BuyLimit (market : string) (quantity rate : float64)
| place_BuyMarket (market : string) (quantity : float64)
| place_SellLimit (market : string) (quantity rate : float64)
| place_SellMarket (market : string) (quantity : float64)
| place_Withdraw (address currency : string) (quantity : float64).

Definition place (b : bittrex) (p : placement)
  : call (string * option error) :=
  match p with
  | place_BuyLimit market quantity rate => BuyLimit b market quantity rate
  | place_BuyMarket market quantity => BuyMarket b market quantity
  | place_SellLimit market quantity rate => SellLimit b market quantity rate
  | place_SellMarket market quantity => SellMarket b market quantity
  | place_Withdraw address currency quantity =>
      Withdraw b address currency quantity
  end.

(** The resource path of a history request of the account, by cases on
    the count and the selector: what the three conditional appends of
    [GetOrderHistory], [GetWithdrawalHistory] and [GetDepositHistory] add
    up to. *)
Definition history_ressource (base name selector : string) (count : Z)
  : string :=
  match (count =? 0)%Z, (selector =? "all") with
  | true, true => base
  | false, true => base ++ "?count=" ++ fmt.d count ++ "&"
  | true, false => base ++ "?" ++ name ++ "=" ++ selector
  | false, false =>
      base ++ "?count=" ++ fmt.d count ++ "&" ++ name ++ "=" ++ selector
  end.

(** The methods whose payload is a slice, indexed by the type of the
    elements. *)
Inductive listing : Type -> Type :=
| list_GetMarkets : listing Market
| list_GetMarketSummaries : listing MarketSummary
| list_GetMarketHistory (market : string) (count : Z) : listing Trade
| list_GetOpenOrders (market : string) : listing Order
| list_GetOrderHistory (market : string) (count : Z) : listing Order
| list_GetWithdrawalHistory (currency : string) (count : Z)
  : listing Withdrawal
| list_GetDepositHistory (currency : string) (count : Z) : listing Deposit.

Definition fetch (b : bittrex) {E} (l : listing E)
  : call (list E * option error) :=
  match l with
  | list_GetMarkets => GetMarkets b
  | list_GetMarketSummaries => GetMarketSummaries b
  | list_GetMarketHistory market count => GetMarketHistory b market count
  | list_GetOpenOrders market => GetOpenOrders b market
  | list_GetOrderHistory market count => GetOrderHistory b market count
  | list_GetWithdrawalHistory currency count =>
      GetWithdrawalHistory b currency count
  | list_GetDepositHistory currency count =>
      GetDepositHistory b currency count
  end.

(** How the elements of the slice are decoded. *)
Definition element {E} (l : listing E) : Unmarshaler E :=
  match l in listing E return Unmarshaler E with
  | list_GetMarkets => _
  | list_GetMarketSummaries => _
  | list_GetMarketHistory _ _ => _
  | list_GetOpenOrders _ => _
  | list_GetOrderHistory _ _ => _
  | list_GetWithdrawalHistory _ _ => _
  | list_GetDepositHistory _ _ => _
  end.

(** A [result] with nothing to store into a [Uuid]: the literal [null], or
    an object none of whose keys names the field [uuid]. *)
Definition lacks_uuid (j : json.value) : bool :=
  match j with
  | json.Null => true
  | json.Object kvs =>
      forallb (fun kv => negb (json.names (fst kv) "uuid")) kvs
  | _ => false
  end.

(** What a well-formed request of the package looks like: the method GET,
    no body, and authentication for every path outside public/. *)
Definition well_formed (req : Client.Request) : Prop :=
  Client.method req = "GET"
  /\ Client.payload req = ""
  /\ Client.authNeeded req
     = negb (strings.HasPrefix (Client.ressource req) "public/").

(** A JSON value of the wrong kind for a slice (anything but an array or
    [null]) and for a struct or a map (anything but an object or [null]). *)
Definition not_for_slice (j : json.value) : bool :=
  match j with
  | json.Array _ | json.Null => false
  | _ => true
  end.

Definition not_for_struct (j : json.value) : bool :=
  match j with
  | json.Object _ | json.Null => false
  | _ => true
  end.

(** A [result] whose kind does not fit the payload of a method, for the
    payloads whose shape the package decides here: the slices, the [Uuid]
    behind an identifier, the [OrderBook] and the map of balances.  (The
    kind that fits a [Ticker], a [Balance] or an [Address] is decided where
    those types are declared.) *)
Definition wrong_kind {T} (o : operation T) (j : json.value) : bool :=
  match o with
  | op_GetMarkets => not_for_slice j
  | op_GetMarketSummaries => not_for_slice j
  | op_GetMarketHistory _ _ => not_for_slice j
  | op_GetOpenOrders _ => not_for_slice j
  | op_GetOrderHistory _ _ => not_for_slice j
  | op_GetWithdrawalHistory _ _ => not_for_slice j
  | op_GetDepositHistory _ _ => not_for_slice j
  | op_GetOrderBook _ _ _ => not_for_struct j
  | op_GetBalances => not_for_struct j
  | op_BuyLimit _ _ _ => not_for_struct j
  | op_BuyMarket _ _ => not_for_struct j
  | op_SellLimit _ _ _ => not_for_struct j
  | op_SellMarket _ _ => not_for_struct j
  | op_Withdraw _ _ _ => not_for_struct j
  | op_GetTicker _ => false
  | op_GetBalance _ => false
  | op_GetDepositAddress _ => false
  | op_CancelOrder _ => false
  end.

(** * Properties *)

(** ** Strings *)

Lemma upper_byte_idem (c : ascii) :
  strings.upper_byte (strings.upper_byte c) = strings.upper_byte c.
Proof.
  destruct c as [[] [] [] [] [] [] [] []]; reflexivity.
Qed.

Lemma upperASCII_idem (s : string) :
  strings.upperASCII (strings.upperASCII s) = strings.upperASCII s.
Proof.
  induction s as [|c s IH]; cbn [strings.upperASCII].
  - reflexivity.
  - now rewrite upper_byte_idem, IH.
Qed.

Lemma upper_byte_below (c : ascii) :
  Nat.ltb (nat_of_ascii c) 128 = true ->
  Nat.ltb (nat_of_ascii (strings.upper_byte c)) 128 = true.
Proof.
  destruct c as [[] [] [] [] [] [] [] []]; trivial.
Qed.

Lemma isASCII_upperASCII (s : string) :
  strings.isASCII s = true -> strings.isASCII (strings.upperASCII s) = true.
Proof.
  induction s as [|c s IH];
    cbn [strings.isASCII strings.upperASCII]; [trivial|].
  intros Hs. apply andb_prop in Hs. destruct Hs as [Hc Hs].
  now rewrite (upper_byte_below c Hc), (IH Hs).
Qed.

(** The upper-case form of an ASCII string is its own upper-case form. *)
Lemma ToUpper_idem_ascii (s : string) :
  strings.isASCII s = true ->
  strings.ToUpper MapToUpper (strings.ToUpper MapToUpper s)
    = strings.ToUpper MapToUpper s.
Proof.
  intros Hs. unfold strings.ToUpper.
  now rewrite Hs, (isASCII_upperASCII s Hs), upperASCII_idem.
Qed.

(** A string whose upper-case form is its own upper-case form does not have
    the reserved word "all" as its upper-case form. *)
Lemma ToUpper_idem_not_all (s : string) :
  strings.ToUpper MapToUpper (strings.ToUpper MapToUpper s)
    = strings.ToUpper MapToUpper s ->
  strings.ToUpper MapToUpper s <> "all".
Proof.
  intros Hidem E. rewrite E in Hidem. discriminate Hidem.
Qed.

Lemma avoids_app (c : ascii) (s1 s2 : string) :
  avoids c (s1 ++ s2) = avoids c s1 && avoids c s2.
Proof.
  induction s1 as [|a s1 IH]; cbn [append avoids].
  - reflexivity.
  - now rewrite IH, andb_assoc.
Qed.

Lemma avoids_uint (c : ascii) (u : uint) :
  avoids c "0123456789" = true ->
  avoids c (NilEmpty.string_of_uint u) = true.
Proof.
  intros Hc.
  induction u as [|u IH|u IH|u IH|u IH|u IH|u IH|u IH|u IH|u IH|u IH];
    cbn [NilEmpty.string_of_uint avoids]; [reflexivity|..];
    rewrite IH, andb_true_r;
    cbn [avoids] in Hc;
    repeat (apply andb_prop in Hc; destruct Hc as [? Hc]);
    assumption.
Qed.

(** What [%d] prints is made of digits and at most a minus sign. *)
Lemma avoids_fmt_d (c : ascii) (n : Z) :
  avoids c "-0123456789" = true -> avoids c (fmt.d n) = true.
Proof.
  intros Hc. cbn [avoids] in Hc.
  apply andb_prop in Hc. destruct Hc as [Hminus Hdigits].
  unfold fmt.d. destruct (Z.to_int n) as [u|u];
    cbn [NilEmpty.string_of_int avoids].
  - now apply avoids_uint.
  - rewrite Hminus. now apply avoids_uint.
Qed.

(** A string that avoids the first byte of [substr] does not contain it. *)
Lemma Contains_avoids (c : ascii) (substr s : string) :
  avoids c s = true -> strings.Contains s (String c substr) = false.
Proof.
  induction s as [|a s IH]; cbn [avoids strings.Contains String.prefix].
  - reflexivity.
  - intros Hc. apply andb_prop in Hc. destruct Hc as [Hca Hs].
    destruct (ascii_dec c a) as [->|_].
    + now rewrite Ascii.eqb_refl in Hca.
    + now apply IH.
Qed.

(** [%d] is one-to-one. *)
Lemma fmt_d_inj (n m : Z) : fmt.d n = fmt.d m -> n = m.
Proof.
  unfold fmt.d. intros E.
  apply DecimalZ.to_int_inj.
  apply (f_equal NilEmpty.int_of_string) in E.
  rewrite !NilEmpty.isi in E. now injection E.
Qed.

(** ** Running a method on the wire *)

Ltac on_wire :=
  unfold sent, returned, answers; cbn;
  repeat match goal with
    | |- context [Client.transport ?c ?q] =>
        destruct (Client.transport c q) as [? ?]
    end;
  cbn.

(** ** Clamping and the order-book request *)

Lemma clamp_range (n : Z) :
  let n1 := if (n >? 100)%Z then 100 else n in
  let n2 := if (n1 <? 1)%Z then 1 else n1 in
  (1 <= n2 <= 100)%Z /\ ((1 <= n <= 100)%Z -> n2 = n).
Proof.
  cbv zeta.
  destruct (Z.gtb_spec n 100) as [Hhi | Hhi].
  - cbn. split; lia.
  - destruct (Z.ltb_spec n 1); split; lia.
Qed.

(** C5: for every depth d, the depth [GetOrderBook] puts into its request is
    a number between 1 and 100, and it is d itself when d is between 1 and
    100. *)
Theorem C5_orderbook_depth_clamped (b : bittrex) (market cat : string)
  (depth : Z) :
  exists (sent_cat : string) (sent_depth : Z),
    sent (GetOrderBook b market cat depth)
      = [GET ("public/getorderbook?market=" ++ strings.ToUpper MapToUpper market
                ++ "&type=" ++ sent_cat ++ "&depth=" ++ fmt.d sent_depth)
             false]
    /\ (1 <= sent_depth <= 100)%Z
    /\ ((1 <= depth <= 100)%Z -> sent_depth = depth).
Proof.
  eexists. eexists. split.
  - unfold GetOrderBook. on_wire. reflexivity.
  - apply clamp_range.
Qed.

(** C10: a [cat] other than "buy", "sell" and "both" goes out as "both";
    one of the three goes out as it is. *)
Theorem C10_orderbook_type_defaults_to_both (b : bittrex)
  (market cat : string) (depth : Z) :
  exists sent_depth : Z,
    (cat <> "buy" -> cat <> "sell" -> cat <> "both" ->
     sent (GetOrderBook b market cat depth)
       = [GET ("public/getorderbook?market=" ++ strings.ToUpper MapToUpper market
                 ++ "&type=both&depth=" ++ fmt.d sent_depth) false])
    /\ (cat = "buy" \/ cat = "sell" \/ cat = "both" ->
        sent (GetOrderBook b market cat depth)
          = [GET ("public/getorderbook?market=" ++ strings.ToUpper MapToUpper market
                    ++ "&type=" ++ cat ++ "&depth=" ++ fmt.d sent_depth)
                 false]).
Proof.
  eexists. split.
  - intros Hbuy Hsell Hboth.
    unfold GetOrderBook. on_wire.
    destruct (String.eqb_spec cat "buy"); [contradiction|].
    destruct (String.eqb_spec cat "sell"); [contradiction|].
    destruct (String.eqb_spec cat "both"); [contradiction|].
    reflexivity.
  - intros [-> | [-> | ->]]; unfold GetOrderBook; on_wire; reflexivity.
Qed.

(** C9: whatever the market and the quantity, [SellMarket] sends its request
    to the path of the sell-limit endpoint, market/selllimit, and not to a
    path of its own. *)
Theorem C9_sellmarket_uses_selllimit_path (b : bittrex) (market : string)
  (quantity : float64) :
  exists path : string,
    sent (SellMarket b market quantity) = [GET path true]
    /\ path = "market/selllimit?market=" ++ market
               ++ "&quantity=" ++ FormatFloat quantity "f" 8 64
    /\ strings.HasPrefix path "market/selllimit?" = true
    /\ strings.HasPrefix path "market/sellmarket" = false.
Proof.
  eexists. split; [|split; [reflexivity|split; reflexivity]].
  unfold SellMarket. on_wire. reflexivity.
Qed.

(** ** The history requests of the account *)

Lemma append_assoc (s1 s2 s3 : string) : (s1 ++ s2) ++ s3 = s1 ++ s2 ++ s3.
Proof.
  induction s1 as [|c s1 IH]; cbn [append]; [reflexivity|now rewrite IH].
Qed.

Lemma sent_GetOrderHistory (b : bittrex) (market : string) (count : Z) :
  sent (GetOrderHistory b market count)
    = [GET (history_ressource "account/getorderhistory" "market"
              market count) true].
Proof.
  unfold GetOrderHistory, history_ressource. on_wire.
  destruct (count =? 0)%Z, (market =? "all"); cbn;
    rewrite ?append_assoc; reflexivity.
Qed.

Lemma sent_GetWithdrawalHistory (b : bittrex) (currency : string)
  (count : Z) :
  sent (GetWithdrawalHistory b currency count)
    = [GET (history_ressource "account/getwithdrawalhistory" "currency"
              currency count) true].
Proof.
  unfold GetWithdrawalHistory, history_ressource. on_wire.
  destruct (count =? 0)%Z, (currency =? "all"); cbn;
    rewrite ?append_assoc; reflexivity.
Qed.

Lemma sent_GetDepositHistory (b : bittrex) (currency : string) (count : Z) :
  sent (GetDepositHistory b currency count)
    = [GET (history_ressource "account/getdeposithistory" "currency"
              currency count) true].
Proof.
  unfold GetDepositHistory, history_ressource. on_wire.
  destruct (count =? 0)%Z, (currency =? "all"); cbn;
    rewrite ?append_assoc; reflexivity.
Qed.

Lemma history_ressource_counted (base name selector : string) (count : Z) :
  count <> 0%Z ->
  history_ressource base name selector count
    = base ++ "?count=" ++ fmt.d count ++ "&"
        ++ (if selector =? "all" then "" else name ++ "=" ++ selector).
Proof.
  intros Hc. unfold history_ressource.
  destruct (Z.eqb_spec count 0); [contradiction|].
  destruct (selector =? "all"); reflexivity.
Qed.

Lemma history_ressource_uncounted (base name selector : string) :
  history_ressource base name selector 0
    = base ++ (if selector =? "all" then ""
               else "?" ++ name ++ "=" ++ selector).
Proof.
  unfold history_ressource. cbn.
  destruct (selector =? "all"); [|reflexivity].
  induction base as [|c base IH]; cbn [append]; [reflexivity|now rewrite <- IH].
Qed.

Lemma history_ressource_all (base name : string) (count : Z) :
  history_ressource base name "all" count
    = base ++ (if (count =? 0)%Z then ""
               else "?count=" ++ fmt.d count ++ "&").
Proof.
  unfold history_ressource. cbn.
  destruct (count =? 0)%Z; [|reflexivity].
  induction base as [|c base IH]; cbn [append]; [reflexivity|now rewrite <- IH].
Qed.

Lemma history_ressource_selected (base name selector : string) (count : Z) :
  selector <> "all" ->
  history_ressource base name selector count
    = base ++ "?"
        ++ (if (count =? 0)%Z then "" else "count=" ++ fmt.d count ++ "&")
        ++ name ++ "=" ++ selector.
Proof.
  intros Hs. unfold history_ressource.
  destruct (String.eqb_spec selector "all"); [contradiction|].
  destruct (count =? 0)%Z; [reflexivity|].
  now rewrite !append_assoc.
Qed.

(** C2, as the code has it: [GetMarketHistory] sends a count between 1 and
    100, the given count when that is between 1 and 100.  The history
    requests of the account ([GetOrderHistory], [GetWithdrawalHistory],
    [GetDepositHistory]) do not clamp: a count other than 0 is sent as it is,
    and for the count 0 no count parameter is sent. *)
Theorem C2_history_counts (b : bittrex) (selector : string) (count : Z) :
  (exists sent_count : Z,
      sent (GetMarketHistory b selector count)
        = [GET ("public/getmarkethistory?market="
                  ++ strings.ToUpper MapToUpper selector
                  ++ "&count=" ++ fmt.d sent_count) false]
      /\ (1 <= sent_count <= 100)%Z
      /\ ((1 <= count <= 100)%Z -> sent_count = count))
  /\ (count <> 0%Z ->
      sent (GetOrderHistory b selector count)
        = [GET ("account/getorderhistory?count=" ++ fmt.d count ++ "&"
                  ++ (if selector =? "all" then ""
                      else "market=" ++ selector)) true]
      /\ sent (GetWithdrawalHistory b selector count)
         = [GET ("account/getwithdrawalhistory?count=" ++ fmt.d count ++ "&"
                   ++ (if selector =? "all" then ""
                       else "currency=" ++ selector)) true]
      /\ sent (GetDepositHistory b selector count)
         = [GET ("account/getdeposithistory?count=" ++ fmt.d count ++ "&"
                   ++ (if selector =? "all" then ""
                       else "currency=" ++ selector)) true])
  /\ (sent (GetOrderHistory b selector 0)
        = [GET ("account/getorderhistory"
                  ++ (if selector =? "all" then ""
                      else "?market=" ++ selector)) true]
      /\ sent (GetWithdrawalHistory b selector 0)
         = [GET ("account/getwithdrawalhistory"
                   ++ (if selector =? "all" then ""
                       else "?currency=" ++ selector)) true]
      /\ sent (GetDepositHistory b selector 0)
         = [GET ("account/getdeposithistory"
                   ++ (if selector =? "all" then ""
                       else "?currency=" ++ selector)) true]).
Proof.
  split; [|split].
  - eexists. split.
    + unfold GetMarketHistory. on_wire. reflexivity.
    + apply clamp_range.
  - intros Hc.
    rewrite sent_GetOrderHistory, sent_GetWithdrawalHistory,
      sent_GetDepositHistory.
    rewrite !history_ressource_counted by assumption.
    repeat split.
  - rewrite sent_GetOrderHistory, sent_GetWithdrawalHistory,
      sent_GetDepositHistory.
    rewrite !history_ressource_uncounted.
    repeat split.
Qed.

(** C4, as the code has it: with the selector "all" the request of
    [GetOrderHistory], [GetWithdrawalHistory] and [GetDepositHistory] has no
    market or currency parameter; any other selector is put into the path
    exactly as it was given, without a change of letter case. *)
Theorem C4_history_selector (b : bittrex) (selector : string) (count : Z) :
  (exists path : string,
      sent (GetOrderHistory b "all" count) = [GET path true]
      /\ path = "account/getorderhistory"
                 ++ (if (count =? 0)%Z then ""
                     else "?count=" ++ fmt.d count ++ "&")
      /\ strings.Contains path "market=" = false)
  /\ (exists path : string,
      sent (GetWithdrawalHistory b "all" count) = [GET path true]
      /\ path = "account/getwithdrawalhistory"
                 ++ (if (count =? 0)%Z then ""
                     else "?count=" ++ fmt.d count ++ "&")
      /\ strings.Contains path "currency=" = false)
  /\ (exists path : string,
      sent (GetDepositHistory b "all" count) = [GET path true]
      /\ path = "account/getdeposithistory"
                 ++ (if (count =? 0)%Z then ""
                     else "?count=" ++ fmt.d count ++ "&")
      /\ strings.Contains path "currency=" = false)
  /\ (selector <> "all" ->
      sent (GetOrderHistory b selector count)
        = [GET ("account/getorderhistory?"
                  ++ (if (count =? 0)%Z then ""
                      else "count=" ++ fmt.d count ++ "&")
                  ++ "market=" ++ selector) true]
      /\ sent (GetWithdrawalHistory b selector count)
         = [GET ("account/getwithdrawalhistory?"
                   ++ (if (count =? 0)%Z then ""
                       else "count=" ++ fmt.d count ++ "&")
                   ++ "currency=" ++ selector) true]
      /\ sent (GetDepositHistory b selector count)
         = [GET ("account/getdeposithistory?"
                   ++ (if (count =? 0)%Z then ""
                       else "count=" ++ fmt.d count ++ "&")
                   ++ "currency=" ++ selector) true]).
Proof.
  assert (Hm : avoids "m" (fmt.d count ++ "&") = true)
    by (rewrite avoids_app, avoids_fmt_d; reflexivity).
  assert (Hc : avoids "c" (fmt.d count ++ "&") = true)
    by (rewrite avoids_app, avoids_fmt_d; reflexivity).
  split; [|split; [|split]].
  - eexists. split; [apply sent_GetOrderHistory|].
    rewrite history_ressource_all. split; [reflexivity|].
    destruct (count =? 0)%Z; [reflexivity|].
    cbn. now apply Contains_avoids.
  - eexists. split; [apply sent_GetWithdrawalHistory|].
    rewrite history_ressource_all. split; [reflexivity|].
    destruct (count =? 0)%Z; [reflexivity|].
    cbn. now apply Contains_avoids.
  - eexists. split; [apply sent_GetDepositHistory|].
    rewrite history_ressource_all. split; [reflexivity|].
    destruct (count =? 0)%Z; [reflexivity|].
    cbn. now apply Contains_avoids.
  - intros Hs.
    rewrite sent_GetOrderHistory, sent_GetWithdrawalHistory,
      sent_GetDepositHistory.
    rewrite !history_ressource_selected by assumption.
    repeat split.
Qed.

(** ** Letter case of market and currency identifiers *)

(** C3, as the code has it: [GetTicker], [GetOrderBook], [GetMarketHistory],
    [GetBalance], [GetDepositAddress], [Withdraw], and [GetOpenOrders] for a
    market other than "all", put [strings.ToUpper] of the identifier into
    the path.  So an identifier and its upper-case form give the same
    request whenever the upper-case form is its own upper-case form, as it
    is for every ASCII identifier.  [BuyLimit], [BuyMarket], [SellLimit],
    [SellMarket] and the three history requests of the account put the
    identifier into the path exactly as it was given. *)
Theorem C3_identifier_case (b : bittrex) (s address cat : string) (n : Z)
  (quantity rate : float64) :
  (sent (GetTicker b s)
     = [GET ("public/getticker?market=" ++ strings.ToUpper MapToUpper s)
            false]
   /\ (exists (sent_cat : string) (sent_depth : Z),
         sent (GetOrderBook b s cat n)
           = [GET ("public/getorderbook?market="
                     ++ strings.ToUpper MapToUpper s
                     ++ "&type=" ++ sent_cat
                     ++ "&depth=" ++ fmt.d sent_depth) false])
   /\ (exists sent_count : Z,
         sent (GetMarketHistory b s n)
           = [GET ("public/getmarkethistory?market="
                     ++ strings.ToUpper MapToUpper s
                     ++ "&count=" ++ fmt.d sent_count) false])
   /\ (s <> "all" ->
       sent (GetOpenOrders b s)
         = [GET ("market/getopenorders?market="
                   ++ strings.ToUpper MapToUpper s) true])
   /\ sent (GetBalance b s)
        = [GET ("account/getbalance?currency="
                  ++ strings.ToUpper MapToUpper s) true]
   /\ sent (GetDepositAddress b s)
        = [GET ("account/getdepositaddress?currency="
                  ++ strings.ToUpper MapToUpper s) true]
   /\ sent (Withdraw b address s quantity)
        = [GET ("account/withdraw?currency="
                  ++ strings.ToUpper MapToUpper s
                  ++ "&quantity=" ++ FormatFloat quantity "f" 8 64
                  ++ "&address=" ++ address) true])
  /\ (strings.isASCII s = true ->
      strings.ToUpper MapToUpper (strings.ToUpper MapToUpper s)
        = strings.ToUpper MapToUpper s)
  /\ (strings.ToUpper MapToUpper (strings.ToUpper MapToUpper s)
        = strings.ToUpper MapToUpper s ->
      sent (GetTicker b s) = sent (GetTicker b (strings.ToUpper MapToUpper s))
      /\ sent (GetOrderBook b s cat n)
           = sent (GetOrderBook b (strings.ToUpper MapToUpper s) cat n)
      /\ sent (GetMarketHistory b s n)
           = sent (GetMarketHistory b (strings.ToUpper MapToUpper s) n)
      /\ (s <> "all" ->
          sent (GetOpenOrders b s)
            = sent (GetOpenOrders b (strings.ToUpper MapToUpper s)))
      /\ sent (GetBalance b s)
           = sent (GetBalance b (strings.ToUpper MapToUpper s))
      /\ sent (GetDepositAddress b s)
           = sent (GetDepositAddress b (strings.ToUpper MapToUpper s))
      /\ sent (Withdraw b address s quantity)
           = sent (Withdraw b address (strings.ToUpper MapToUpper s)
                     quantity))
  /\ sent (BuyLimit b s quantity rate)
       = [GET ("market/buylimit?market=" ++ s
                 ++ "&quantity=" ++ FormatFloat quantity "f" 8 64
                 ++ "&rate=" ++ FormatFloat rate "f" 8 64) true]
  /\ sent (BuyMarket b s quantity)
       = [GET ("market/buymarket?market=" ++ s
                 ++ "&quantity=" ++ FormatFloat quantity "f" 8 64) true]
  /\ sent (SellLimit b s quantity rate)
       = [GET ("market/selllimit?market=" ++ s
                 ++ "&quantity=" ++ FormatFloat quantity "f" 8 64
                 ++ "&rate=" ++ FormatFloat rate "f" 8 64) true]
  /\ sent (SellMarket b s quantity)
       = [GET ("market/selllimit?market=" ++ s
                 ++ "&quantity=" ++ FormatFloat quantity "f" 8 64) true]
  /\ (s <> "all" ->
      sent (GetOrderHistory b s n)
        = [GET ("account/getorderhistory?"
                  ++ (if (n =? 0)%Z then "" else "count=" ++ fmt.d n ++ "&")
                  ++ "market=" ++ s) true]
      /\ sent (GetWithdrawalHistory b s n)
         = [GET ("account/getwithdrawalhistory?"
                   ++ (if (n =? 0)%Z then "" else "count=" ++ fmt.d n ++ "&")
                   ++ "currency=" ++ s) true]
      /\ sent (GetDepositHistory b s n)
         = [GET ("account/getdeposithistory?"
                   ++ (if (n =? 0)%Z then "" else "count=" ++ fmt.d n ++ "&")
                   ++ "currency=" ++ s) true]).
Proof.
  split; [|split; [|split; [|split; [|split; [|split; [|split]]]]]].
  - repeat match goal with |- _ /\ _ => split end.
    + unfold GetTicker. on_wire. reflexivity.
    + eexists. eexists. unfold GetOrderBook. on_wire. reflexivity.
    + eexists. unfold GetMarketHistory. on_wire. reflexivity.
    + intros Hs. unfold GetOpenOrders.
      destruct (String.eqb_spec s "all"); [contradiction|].
      on_wire. reflexivity.
    + unfold GetBalance. on_wire. reflexivity.
    + unfold GetDepositAddress. on_wire. reflexivity.
    + unfold Withdraw. on_wire. reflexivity.
  - apply ToUpper_idem_ascii.
  - intros Hidem.
    repeat match goal with |- _ /\ _ => split end.
    + unfold GetTicker. on_wire. now rewrite Hidem.
    + unfold GetOrderBook. on_wire. now rewrite Hidem.
    + unfold GetMarketHistory. on_wire. now rewrite Hidem.
    + intros Hs. unfold GetOpenOrders.
      destruct (String.eqb_spec s "all"); [contradiction|].
      destruct (String.eqb_spec (strings.ToUpper MapToUpper s) "all")
        as [E|_]; [now apply ToUpper_idem_not_all in E|].
      on_wire. now rewrite Hidem.
    + unfold GetBalance. on_wire. now rewrite Hidem.
    + unfold GetDepositAddress. on_wire. now rewrite Hidem.
    + unfold Withdraw. on_wire. now rewrite Hidem.
  - unfold BuyLimit. on_wire. reflexivity.
  - unfold BuyMarket. on_wire. reflexivity.
  - unfold SellLimit. on_wire. reflexivity.
  - unfold SellMarket. on_wire. reflexivity.
  - intros Hs.
    rewrite sent_GetOrderHistory, sent_GetWithdrawalHistory,
      sent_GetDepositHistory.
    rewrite !history_ressource_selected by assumption.
    repeat split.
Qed.

(** ** Decoding *)

Lemma elements_decoded {T} `{Unmarshaler T} (l : list json.value) :
  fst (json.elements l) = json.decoded l.
Proof.
  induction l as [|j l IH]; cbn [json.elements json.decoded map].
  - reflexivity.
  - destruct (store j zero) as [x e].
    destruct (json.elements l) as [xs e'].
    cbn in *. now rewrite IH.
Qed.

(** Storing the members of an object: the error does not depend on the
    variable stored into, and a field of the struct ends up either as it was
    or with a value the document alone decides. *)
Section Members.

Context {T : Type} (field : string -> json.value -> T -> T * option error).

Lemma steady_compose {A} (p : T -> A) (g1 g2 : T -> T) :
  steady p g1 -> steady p g2 -> steady p (fun v => g2 (g1 v)).
Proof.
  intros [K1 | [c1 K1]] [K2 | [c2 K2]].
  - left. intros v. now rewrite K2, K1.
  - right. exists c2. intros v. apply K2.
  - right. exists c1. intros v. now rewrite K2, K1.
  - right. exists c2. intros v. apply K2.
Qed.

Lemma steady_twice {A} (p : T -> A) (g : T -> T) (v : T) :
  steady p g -> p (g (g v)) = p (g v).
Proof.
  intros [K | [c K]]; [apply K | now rewrite !K].
Qed.

Lemma members_cons (k : string) (j : json.value)
  (kvs : list (string * json.value)) (v : T) :
  json.members field ((k, j) :: kvs) v
    = (fst (json.members field kvs (fst (field k j v))),
       json.saveError (snd (field k j v))
         (snd (json.members field kvs (fst (field k j v))))).
Proof.
  cbn [json.members].
  destruct (field k j v) as [v1 e]. cbn [fst snd].
  now destruct (json.members field kvs v1).
Qed.

Hypothesis field_error :
  forall k j v1 v2, snd (field k j v1) = snd (field k j v2).

Lemma members_error (kvs : list (string * json.value)) (v1 v2 : T) :
  snd (json.members field kvs v1) = snd (json.members field kvs v2).
Proof.
  revert v1 v2.
  induction kvs as [|[k j] kvs IH]; intros v1 v2; [reflexivity|].
  rewrite !members_cons. cbn [snd].
  rewrite (field_error k j v1 v2).
  now rewrite (IH (fst (field k j v1)) (fst (field k j v2))).
Qed.

Lemma members_steady {A} (p : T -> A) (kvs : list (string * json.value)) :
  (forall k j, steady p (fun v => fst (field k j v))) ->
  steady p (fun v => fst (json.members field kvs v)).
Proof.
  intros Hfield.
  induction kvs as [|[k j] kvs IH]; [now left|].
  destruct (steady_compose p _ _ (Hfield k j) IH) as [K | [c K]].
  - left. intros v. rewrite members_cons. apply K.
  - right. exists c. intros v. rewrite members_cons. apply K.
Qed.

End Members.

Lemma jsonResponse_field_error (k : string) (j : json.value)
  (v1 v2 : jsonResponse) :
  snd (jsonResponse_field k j v1) = snd (jsonResponse_field k j v2).
Proof.
  unfold jsonResponse_field.
  destruct (json.names k "success"); [now destruct j|].
  destruct (json.names k "message"); [now destruct j|].
  destruct (json.names k "result"); reflexivity.
Qed.

Lemma jsonResponse_field_steady (k : string) (j : json.value) :
  steady Success (fun v => fst (jsonResponse_field k j v))
  /\ steady Message (fun v => fst (jsonResponse_field k j v))
  /\ steady Result (fun v => fst (jsonResponse_field k j v)).
Proof.
  unfold jsonResponse_field, steady.
  destruct (json.names k "success");
    [|destruct (json.names k "message");
      [|destruct (json.names k "result")]];
    destruct j; cbn; repeat split;
    solve [ left; reflexivity | right; eexists; intros; reflexivity ].
Qed.

(** Decoding the same envelope text a second time into the same variable,
    as [GetOpenOrders] does, changes nothing. *)
Lemma envelope_decoded_twice (r : json.bytes) (v response : jsonResponse)
  (err : option error) :
  json.Unmarshal r v = (response, err) ->
  json.Unmarshal r response = (response, err).
Proof.
  destruct r as [msg|j]; cbn [json.Unmarshal].
  - now intros [= <- <-].
  - destruct j as [|x|x|x|x|kvs]; cbn; try now intros [= <- <-].
    intros Hm.
    pose proof (members_error jsonResponse_field jsonResponse_field_error
                  kvs response v) as He.
    pose proof (steady_twice Success _ v
                  (members_steady jsonResponse_field Success kvs
                     (fun k j => proj1 (jsonResponse_field_steady k j))))
      as K1.
    pose proof (steady_twice Message _ v
                  (members_steady jsonResponse_field Message kvs
                     (fun k j =>
                        proj1 (proj2 (jsonResponse_field_steady k j)))))
      as K2.
    pose proof (steady_twice Result _ v
                  (members_steady jsonResponse_field Result kvs
                     (fun k j =>
                        proj2 (proj2 (jsonResponse_field_steady k j)))))
      as K3.
    cbv beta in K1, K2, K3. rewrite Hm in K1, K2, K3, He. cbn [fst snd] in *.
    destruct (json.members jsonResponse_field kvs response) as [v2 e2].
    cbn [fst snd] in *. subst e2. f_equal.
    destruct v2, response; cbn in *; congruence.
Qed.

(** ** The envelope *)

#[local] Arguments json.Unmarshal : simpl never.

Create HintDb methods discriminated.

#[local] Hint Unfold GetMarkets GetTicker GetMarketSummaries GetOrderBook
  GetMarketHistory BuyLimit BuyMarket SellLimit SellMarket CancelOrder
  GetOpenOrders GetBalances GetBalance GetDepositAddress Withdraw
  GetOrderHistory GetWithdrawalHistory GetDepositHistory : methods.

(** One round trip whose transport answers with the body [r] and no error,
    and whose envelope decodes to [response]. *)
Ltac round_trip Hanswer Henvelope :=
  autounfold with methods in *;
  unfold answers, sent, returned in *;
  cbn in Hanswer, Henvelope |- *;
  match goal with
  | |- context [Client.transport ?c ?q] =>
      let E := fresh "E" in
      destruct (Client.transport c q) as [? ?] eqn:E;
      try rewrite E in Hanswer; cbn in Hanswer; rewrite E in Hanswer
  end;
  injection Hanswer as -> ->;
  cbn;
  rewrite ?Henvelope; cbn;
  rewrite ?(envelope_decoded_twice _ _ _ _ Henvelope); cbn.

(** Every method but [GetOpenOrders] reports an envelope whose [success] is
    false as the error [errors.New(message)] and leaves the payload as it
    was. *)
Lemma failure_reported {T} (o : operation T) (b : bittrex) (r : json.bytes)
  (response : jsonResponse) :
  checks_success o = true ->
  answers b (perform b o) = [(r, None)] ->
  json.Unmarshal r (zero : jsonResponse) = (response, None) ->
  Success response = false ->
  returned (perform b o)
    = (undecoded o, Some (errorString (Message response))).
Proof.
  intros Hchecks Hanswer Henvelope Hfailure.
  destruct o; try discriminate Hchecks; cbn [perform undecoded] in *;
    round_trip Hanswer Henvelope;
    unfold handleErr; rewrite Hfailure; reflexivity.
Qed.

Lemma failure_message {T} (o : operation T) (b : bittrex) (r : json.bytes)
  (response : jsonResponse) :
  checks_success o = true ->
  answers b (perform b o) = [(r, None)] ->
  json.Unmarshal r (zero : jsonResponse) = (response, None) ->
  Success response = false ->
  exists e : error,
    returned (perform b o) = (undecoded o, Some e)
    /\ Error e = Message response.
Proof.
  intros Hchecks Hanswer Henvelope Hfailure.
  exists (errorString (Message response)).
  split; [now apply failure_reported with (r := r)|reflexivity].
Qed.

(** C1 (at the method where it fails): [GetOpenOrders] never passes the
    envelope to [handleErr].  When [success] is false it still decodes the
    [result] field into the payload, and its error is whatever that decoding
    gives, not the message of the envelope. *)
Theorem C1_GetOpenOrders_skips_handleErr (b : bittrex) (market : string)
  (r : json.bytes) (response : jsonResponse) :
  answers b (GetOpenOrders b market) = [(r, None)] ->
  json.Unmarshal r (zero : jsonResponse) = (response, None) ->
  Success response = false ->
  returned (GetOpenOrders b market)
    = json.Unmarshal (Result response) (zero : list Order).
Proof.
  intros Hanswer Henvelope Hfailure.
  round_trip Hanswer Henvelope.
  now destruct (json.Unmarshal (Result response) []).
Qed.

(** One round trip whose single request the transport answers with the body
    [r] and no error, and whose envelope decodes to [response]. *)
Ltac answered Hanswer Henvelope :=
  autounfold with methods;
  unfold returned; cbn;
  cbn in Hanswer; rewrite Hanswer; cbn;
  cbn in Henvelope;
  rewrite ?Henvelope; cbn;
  rewrite ?(envelope_decoded_twice _ _ _ _ Henvelope); cbn.

(** C7: when the envelope says [success] and its [result] is the wrapper
    [{uuid: s}], each of [BuyLimit], [BuyMarket], [SellLimit], [SellMarket]
    and [Withdraw] returns the string s, with no error: the method sends
    its one request, and when that request is answered with such an
    envelope, s is what it returns. *)
Theorem C7_placement_returns_identifier (b : bittrex) (p : placement)
  (r : json.bytes) (response : jsonResponse) (s : string) :
  json.Unmarshal r (zero : jsonResponse) = (response, None) ->
  Success response = true ->
  Result response = json.Text (json.Object [("uuid", json.Str s)]) ->
  exists req : Client.Request,
    sent (place b p) = [req]
    /\ (Client.transport (client b) req = (r, None) ->
        returned (place b p) = (s, None)).
Proof.
  intros Henvelope Hsuccess Hresult.
  destruct p; cbn [place]; eexists;
    (split;
     [ autounfold with methods; on_wire; reflexivity
     | intros Hanswer; answered Hanswer Henvelope;
       unfold handleErr; rewrite Hsuccess, Hresult; reflexivity ]).
Qed.

Lemma orderbook_of_arrays (buy sell : list json.value) :
  json.Unmarshal
    (json.Text
       (json.Object [("buy", json.Array buy); ("sell", json.Array sell)]))
    (zero : OrderBook Orderb)
  = ({| Buy := fst (json.elements buy); Sell := fst (json.elements sell) |},
     json.saveError (snd (json.elements (T := Orderb) buy))
       (snd (json.elements (T := Orderb) sell))).
Proof.
  cbv -[json.elements].
  destruct (json.elements buy) as [bs eb].
  destruct (json.elements sell) as [ss es].
  now destruct eb, es.
Qed.

(** C6: [GetOrderBook "btc-ltc" "both" 150] sends one request, without
    authentication, to public/getorderbook?market=BTC-LTC&type=both&depth=100;
    when the answer is an envelope with [success] true whose [result] is
    [{buy: [...], sell: [...]}] the order book returned holds the decoded
    entries of both arrays in the order of the arrays, and the error is the
    first one met while decoding the entries, if any. *)
Theorem C6_orderbook_scenario (b : bittrex) (r : json.bytes)
  (response : jsonResponse) (buy sell : list json.value) :
  answers b (GetOrderBook b "btc-ltc" "both" 150) = [(r, None)] ->
  json.Unmarshal r (zero : jsonResponse) = (response, None) ->
  Success response = true ->
  Result response
    = json.Text
        (json.Object [("buy", json.Array buy); ("sell", json.Array sell)]) ->
  sent (GetOrderBook b "btc-ltc" "both" 150)
    = [GET "public/getorderbook?market=BTC-LTC&type=both&depth=100" false]
  /\ returned (GetOrderBook b "btc-ltc" "both" 150)
     = ({| Buy := json.decoded buy; Sell := json.decoded sell |},
        json.saveError (snd (json.elements (T := Orderb) buy))
          (snd (json.elements (T := Orderb) sell))).
Proof.
  intros Hanswer Henvelope Hsuccess Hresult. split.
  - unfold GetOrderBook. on_wire. reflexivity.
  - pose proof (orderbook_of_arrays buy sell) as Hbook.
    round_trip Hanswer Henvelope.
    unfold handleErr. rewrite Hsuccess, Hresult. cbn.
    cbn in Hbook. rewrite Hbook.
    now rewrite !elements_decoded.
Qed.

(** C8, as the code has it: a method returns what [json.Unmarshal] left in
    the payload.  The payload is still undecoded, and returned together with
    the error, when the [result] field is not well-formed JSON (it is empty
    when the envelope has no such member), and when [result] is a value of
    the wrong kind for the payload: anything but an array or [null] for the
    methods that return a slice, anything but an object or [null] for the
    order book, the balances and the identifier of the order-placement
    methods and of [Withdraw]. *)
Theorem C8_unfit_result_leaves_payload {T} (o : operation T) (b : bittrex)
  (r : json.bytes) (response : jsonResponse) :
  has_payload o = true ->
  json.Unmarshal r (zero : jsonResponse) = (response, None) ->
  Success response = true ->
  exists req : Client.Request,
    sent (perform b o) = [req]
    /\ (Client.transport (client b) req = (r, None) ->
        (forall msg : string,
            Result response = json.Invalid msg ->
            returned (perform b o) = (undecoded o, Some (SyntaxError msg)))
        /\ (forall j : json.value,
               Result response = json.Text j ->
               wrong_kind o j = true ->
               exists type_ : string,
                 returned (perform b o)
                   = (undecoded o,
                      Some (UnmarshalTypeError (json.describe j) type_)))).
Proof.
  intros Hpayload Henvelope Hsuccess.
  destruct o; try discriminate Hpayload;
    cbn [perform undecoded wrong_kind]; eexists;
    (split;
     [ autounfold with methods; on_wire; reflexivity
     | intros Hanswer;
       split;
       [ intros msg Hresult
       | intros j Hresult Hwrong ] ]).
  all: try discriminate Hwrong.
  all: answered Hanswer Henvelope;
       unfold handleErr; rewrite ?Hsuccess, Hresult; cbn;
       try reflexivity.
  all: destruct j; try discriminate Hwrong;
       unfold json.Unmarshal; cbn; eexists; reflexivity.
Qed.

(** ** One request for one call *)

(** Every method sends exactly one request, whatever the client answers and
    whether the call fails or not: the request is decided by the method and
    its arguments alone, and it is put on the wire behind the requests that
    are already there. *)
Theorem one_request_per_call {T} (o : operation T) :
  exists req : Client.Request,
    forall (b : bittrex) (w : Client.wire),
      snd (runState (perform b o) w) = (w ++ [req])%list.
Proof.
  destruct o; eexists; intros b w; cbn [perform];
    autounfold with methods; cbn;
    destruct (Client.transport _ _) as [? ?]; reflexivity.
Qed.

Lemma well_formed_public (path : string) :
  strings.HasPrefix path "public/" = true -> well_formed (GET path false).
Proof.
  intros Hp. unfold well_formed, GET.
  cbn [Client.method Client.payload Client.authNeeded Client.ressource].
  now rewrite Hp.
Qed.

Lemma well_formed_private (path : string) :
  strings.HasPrefix path "public/" = false -> well_formed (GET path true).
Proof.
  intros Hp. unfold well_formed, GET.
  cbn [Client.method Client.payload Client.authNeeded Client.ressource].
  now rewrite Hp.
Qed.

(** Every request a method sends is a GET without a body, also when it
    places or cancels an order or withdraws funds; it asks for
    authentication exactly when its path is not under public/. *)
Theorem requests_well_formed {T} (o : operation T) (b : bittrex) :
  Forall well_formed (sent (perform b o)).
Proof.
  destruct o; cbn [perform];
    rewrite ?sent_GetOrderHistory, ?sent_GetWithdrawalHistory,
      ?sent_GetDepositHistory;
    unfold history_ressource;
    autounfold with methods; on_wire;
    repeat match goal with
      | |- context [if ?c then _ else _] => destruct c
      end;
    (constructor; [|constructor]);
    first [ apply well_formed_public; reflexivity
          | apply well_formed_private; reflexivity ].
Qed.

(** ** Failures before the payload *)

(** When [client.do] reports an error, every method returns that very error
    and the undecoded payload; the body is not looked at. *)
Theorem transport_error_returned {T} (o : operation T) (b : bittrex)
  (r : json.bytes) (e : error) :
  answers b (perform b o) = [(r, Some e)] ->
  returned (perform b o) = (undecoded o, Some e).
Proof.
  intros Hanswer.
  assert (Henvelope : True) by exact I.
  destruct o; cbn [perform undecoded] in *;
    round_trip Hanswer Henvelope; reflexivity.
Qed.

(** When the body is not an envelope ([json.Unmarshal] into the
    [jsonResponse] gives an error), every method returns that error and the
    undecoded payload, whatever the part of the envelope that did decode
    says. *)
Theorem envelope_error_returned {T} (o : operation T) (b : bittrex)
  (r : json.bytes) (response : jsonResponse) (e : error) :
  answers b (perform b o) = [(r, None)] ->
  json.Unmarshal r (zero : jsonResponse) = (response, Some e) ->
  returned (perform b o) = (undecoded o, Some e).
Proof.
  intros Hanswer Henvelope.
  destruct o; cbn [perform undecoded] in *;
    round_trip Hanswer Henvelope; reflexivity.
Qed.

(** Every method but [GetOpenOrders], on an envelope whose [success] is
    false: the payload stays undecoded, whatever [result] holds, and the
    error is [errors.New] of the message, so that its [Error()] is the
    message of the envelope to the letter. *)
Theorem api_failure_returned {T} (o : operation T) (b : bittrex)
  (r : json.bytes) (response : jsonResponse) :
  checks_success o = true ->
  answers b (perform b o) = [(r, None)] ->
  json.Unmarshal r (zero : jsonResponse) = (response, None) ->
  Success response = false ->
  fst (returned (perform b o)) = undecoded o
  /\ snd (returned (perform b o)) = errors.New (Message response)
  /\ option_map Error (snd (returned (perform b o)))
     = Some (Message response).
Proof.
  intros Hchecks Hanswer Henvelope Hfailure.
  rewrite (failure_reported o b r response Hchecks Hanswer Henvelope
             Hfailure).
  repeat split.
Qed.

(** [CancelOrder] returns no error exactly when the transport gave none,
    the body decoded as an envelope, and the envelope says [success]; the
    [result] field plays no part. *)
Theorem CancelOrder_succeeds_iff (b : bittrex) (orderID : string) :
  returned (CancelOrder b orderID) = None
  <-> exists (r : json.bytes) (response : jsonResponse),
        answers b (CancelOrder b orderID) = [(r, None)]
        /\ json.Unmarshal r (zero : jsonResponse) = (response, None)
        /\ Success response = true.
Proof.
  split.
  - unfold CancelOrder, answers, sent, returned. cbn.
    destruct (Client.transport _ _) as [r e] eqn:E. cbn. rewrite E.
    destruct e as [e|]; cbn; [discriminate|].
    destruct (json.Unmarshal r _) as [response e] eqn:Henvelope.
    destruct e as [e|]; cbn; [discriminate|].
    unfold handleErr.
    destruct (Success response) eqn:Hsuccess; cbn; [|discriminate].
    intros _. now exists r, response.
  - intros (r & response & Hanswer & Henvelope & Hsuccess).
    round_trip Hanswer Henvelope.
    unfold handleErr. now rewrite Hsuccess.
Qed.

(** ** [GetOpenOrders] *)

(** Decoding the envelope twice is the only thing the second
    [json.Unmarshal] of [GetOpenOrders] does: the method returns what it
    would return with a single decoding of the envelope followed by the
    decoding of [result]. *)
Theorem GetOpenOrders_as_decoded_once (b : bittrex) (market : string)
  (r : json.bytes) :
  answers b (GetOpenOrders b market) = [(r, None)] ->
  returned (GetOpenOrders b market)
    = (let '(response, err) := json.Unmarshal r (zero : jsonResponse) in
       if isErr err then (zero, err)
       else json.Unmarshal (Result response) (zero : list Order)).
Proof.
  intros Hanswer.
  destruct (json.Unmarshal r (zero : jsonResponse)) as [response err]
    eqn:Henvelope.
  round_trip Hanswer Henvelope.
  destruct err as [e|]; cbn; [reflexivity|].
  now destruct (json.Unmarshal (Result response) []).
Qed.

Lemma append_longer (s : string) (c : ascii) (t : string) :
  s ++ String c t <> s.
Proof.
  induction s as [|a s IH]; cbn [append]; [discriminate|].
  intros E. injection E as E. now apply IH.
Qed.

(** The reserved word of [GetOpenOrders] is "all" in lower case and nothing
    else: the bare path market/getopenorders is sent for that market only
    ("ALL" is sent as a market like any other). *)
Theorem GetOpenOrders_bare_iff_all (b : bittrex) (market : string) :
  sent (GetOpenOrders b market) = [GET "market/getopenorders" true]
  <-> market = "all".
Proof.
  unfold GetOpenOrders.
  destruct (String.eqb_spec market "all") as [->|Hm]; on_wire.
  - split; reflexivity.
  - split; [|contradiction].
    intros E. discriminate E.
Qed.

(** ** The history requests without a query *)

Lemma history_ressource_bare (base name selector : string) (count : Z) :
  history_ressource base name selector count = base
  <-> count = 0%Z /\ selector = "all".
Proof.
  unfold history_ressource.
  destruct (Z.eqb_spec count 0) as [Hc|Hc];
    destruct (String.eqb_spec selector "all") as [Hs|Hs].
  - now split.
  - split; [intros E; now apply append_longer in E|tauto].
  - split; [intros E; now apply append_longer in E|tauto].
  - split; [intros E; now apply append_longer in E|tauto].
Qed.

(** [GetOrderHistory], [GetWithdrawalHistory] and [GetDepositHistory] send
    their bare path, with no question mark, exactly when the count is 0 and
    the selector is "all". *)
Theorem history_bare_iff (b : bittrex) (selector : string) (count : Z) :
  (sent (GetOrderHistory b selector count)
     = [GET "account/getorderhistory" true]
   <-> count = 0%Z /\ selector = "all")
  /\ (sent (GetWithdrawalHistory b selector count)
        = [GET "account/getwithdrawalhistory" true]
      <-> count = 0%Z /\ selector = "all")
  /\ (sent (GetDepositHistory b selector count)
        = [GET "account/getdeposithistory" true]
      <-> count = 0%Z /\ selector = "all").
Proof.
  rewrite sent_GetOrderHistory, sent_GetWithdrawalHistory,
    sent_GetDepositHistory.
  assert (Hbare : forall base name,
             [GET (history_ressource base name selector count) true]
               = [GET base true]
             <-> count = 0%Z /\ selector = "all").
  { intros base name. rewrite <- (history_ressource_bare base name).
    split; [intros E; now injection E|intros E; now rewrite E]. }
  split; [|split]; apply Hbare.
Qed.

(** ** Depths and counts out of range *)

(** A depth of 100 or more is the depth 100, and a depth of 1 or less is
    the depth 1: the whole call of [GetOrderBook] is the same, request and
    result.  The same holds for the count of [GetMarketHistory]. *)
Theorem out_of_range_saturates (b : bittrex) (market cat : string) (n : Z)
  (w : Client.wire) :
  ((100 <= n)%Z ->
   runState (GetOrderBook b market cat n) w
     = runState (GetOrderBook b market cat 100) w
   /\ runState (GetMarketHistory b market n) w
      = runState (GetMarketHistory b market 100) w)
  /\ ((n <= 1)%Z ->
      runState (GetOrderBook b market cat n) w
        = runState (GetOrderBook b market cat 1) w
      /\ runState (GetMarketHistory b market n) w
         = runState (GetMarketHistory b market 1) w).
Proof.
  unfold GetOrderBook, GetMarketHistory.
  split; intros Hn.
  - destruct (Z.gtb_spec n 100) as [Hhi|Hhi].
    + split; reflexivity.
    + assert (n = 100%Z) as -> by lia. split; reflexivity.
  - destruct (Z.gtb_spec n 100) as [Hhi|Hhi]; [lia|].
    destruct (Z.ltb_spec n 1) as [Hlo|Hlo].
    + split; reflexivity.
    + assert (n = 1%Z) as -> by lia. split; reflexivity.
Qed.

(** ** Payloads *)

Lemma members_without_uuid (kvs : list (string * json.value)) (u : Uuid) :
  forallb (fun kv => negb (json.names (fst kv) "uuid")) kvs = true ->
  json.members Uuid_field kvs u = (u, None).
Proof.
  induction kvs as [|[k j] kvs IH]; cbn [forallb json.members fst];
    [reflexivity|].
  intros Hk. apply andb_prop in Hk. destruct Hk as [Hk Hkvs].
  unfold Uuid_field at 1.
  destruct (json.names k "uuid"); [discriminate|].
  now rewrite (IH Hkvs).
Qed.

(** When the envelope says [success] but its [result] has no [uuid] member
    (or is [null]), [BuyLimit], [BuyMarket], [SellLimit], [SellMarket] and
    [Withdraw] report no error: they return the empty string as the
    identifier. *)
Theorem placement_without_uuid (b : bittrex) (p : placement)
  (r : json.bytes) (response : jsonResponse) (j : json.value) :
  answers b (place b p) = [(r, None)] ->
  json.Unmarshal r (zero : jsonResponse) = (response, None) ->
  Success response = true ->
  Result response = json.Text j ->
  lacks_uuid j = true ->
  returned (place b p) = ("", None).
Proof.
  intros Hanswer Henvelope Hsuccess Hresult Hlacks.
  assert (Hstore : json.Unmarshal (json.Text j) {| Id := "" |}
                   = ({| Id := "" |}, None)).
  { destruct j as [|x|x|x|x|kvs]; try discriminate Hlacks;
      [reflexivity|].
    exact (members_without_uuid kvs _ Hlacks). }
  destruct p; cbn [place] in *;
    round_trip Hanswer Henvelope;
    unfold handleErr; rewrite Hsuccess, Hresult; cbn;
    now rewrite Hstore.
Qed.

(** The seven methods that return a slice, on an envelope that says
    [success]: when [result] is an array, the slice holds one decoded
    element for each element of the array, in the order of the array, also
    for the elements that did not fit (the error is the first such misfit);
    when [result] is [null], the slice is empty and there is no error. *)
Theorem listing_follows_array {E} (l : listing E) (b : bittrex)
  (r : json.bytes) (response : jsonResponse) :
  answers b (fetch b l) = [(r, None)] ->
  json.Unmarshal r (zero : jsonResponse) = (response, None) ->
  Success response = true ->
  (forall docs : list json.value,
      Result response = json.Text (json.Array docs) ->
      returned (fetch b l)
        = (json.decoded (H := element l) docs,
           snd (json.elements (H := element l) docs))
      /\ List.length (fst (returned (fetch b l))) = List.length docs)
  /\ (Result response = json.Text json.Null ->
      returned (fetch b l) = ([], None)).
Proof.
  intros Hanswer Henvelope Hsuccess.
  assert (Hlen : forall docs,
             List.length (json.decoded (H := element l) docs)
             = List.length docs)
    by (intros docs; apply List.length_map).
  destruct l; cbn [fetch element] in *;
    round_trip Hanswer Henvelope;
    unfold handleErr; rewrite ?Hsuccess; cbn;
    (split; [intros docs Hresult|intros Hresult]);
    rewrite Hresult; unfold json.Unmarshal; cbn;
    rewrite <- ?elements_decoded;
    try reflexivity;
    (destruct (json.elements docs) as [xs e] eqn:Hdocs; cbn;
     split; [reflexivity|];
     rewrite <- (Hlen docs), <- elements_decoded, Hdocs; reflexivity).
Qed.

(** ** Counts and depths are sent as they are *)

Lemma append_cancel (s a b : string) : s ++ a = s ++ b -> a = b.
Proof.
  induction s as [|c s IH]; cbn [append]; [trivial|].
  intros E. injection E as E. now apply IH.
Qed.

Lemma append_until (c : ascii) (a b r1 r2 : string) :
  avoids c a = true -> avoids c b = true ->
  a ++ String c r1 = b ++ String c r2 -> a = b.
Proof.
  revert b.
  induction a as [|x a IH]; intros [|y b]; cbn [avoids append];
    intros Ha Hb E.
  - reflexivity.
  - injection E as -> _. now rewrite Ascii.eqb_refl in Hb.
  - injection E as <- _. now rewrite Ascii.eqb_refl in Ha.
  - apply andb_prop in Ha. destruct Ha as [_ Ha].
    apply andb_prop in Hb. destruct Hb as [_ Hb].
    injection E as -> E. f_equal. now apply IH.
Qed.

Lemma history_ressource_count (base name selector : string) (c1 c2 : Z) :
  name = "market" \/ name = "currency" ->
  history_ressource base name selector c1
    = history_ressource base name selector c2 ->
  c1 = c2.
Proof.
  intros Hname. unfold history_ressource.
  assert (Hamp : forall c, avoids "&" (fmt.d c) = true)
    by (intros c; now apply avoids_fmt_d).
  destruct (Z.eqb_spec c1 0) as [->|Hc1], (Z.eqb_spec c2 0) as [->|Hc2],
    (selector =? "all"); intros E; try reflexivity;
    try (now apply append_longer in E);
    try (symmetry in E; now apply append_longer in E);
    try (apply append_cancel in E;
         destruct Hname as [-> | ->]; discriminate E);
    apply append_cancel in E;
    apply (append_cancel "?count=") in E;
    apply append_until in E; auto using fmt_d_inj.
Qed.

Lemma sent_GetOrderBook_in_range (b : bittrex) (market cat : string)
  (depth : Z) :
  (1 <= depth <= 100)%Z ->
  sent (GetOrderBook b market cat depth)
    = [GET ("public/getorderbook?market=" ++ strings.ToUpper MapToUpper market
              ++ "&type="
              ++ (if negb (cat =? "buy") && negb (cat =? "sell")
                     && negb (cat =? "both")
                  then "both" else cat)
              ++ "&depth=" ++ fmt.d depth) false].
Proof.
  intros Hd. unfold GetOrderBook.
  destruct (Z.gtb_spec depth 100); [lia|].
  destruct (Z.ltb_spec depth 1); [lia|].
  on_wire. reflexivity.
Qed.

Lemma sent_GetMarketHistory_in_range (b : bittrex) (market : string)
  (count : Z) :
  (1 <= count <= 100)%Z ->
  sent (GetMarketHistory b market count)
    = [GET ("public/getmarkethistory?market=" ++ strings.ToUpper MapToUpper market
              ++ "&count=" ++ fmt.d count) false].
Proof.
  intros Hd. unfold GetMarketHistory.
  destruct (Z.gtb_spec count 100); [lia|].
  destruct (Z.ltb_spec count 1); [lia|].
  on_wire. reflexivity.
Qed.

(** A count or depth that is sent is sent without loss: two calls of a
    history request of the account with different counts (0 included) send
    different requests, and so do two calls of [GetOrderBook] or
    [GetMarketHistory] with different numbers between 1 and 100. *)
Theorem counts_sent_without_loss (b : bittrex) (selector cat : string)
  (n1 n2 : Z) :
  (sent (GetOrderHistory b selector n1)
     = sent (GetOrderHistory b selector n2) -> n1 = n2)
  /\ (sent (GetWithdrawalHistory b selector n1)
        = sent (GetWithdrawalHistory b selector n2) -> n1 = n2)
  /\ (sent (GetDepositHistory b selector n1)
        = sent (GetDepositHistory b selector n2) -> n1 = n2)
  /\ ((1 <= n1 <= 100)%Z -> (1 <= n2 <= 100)%Z ->
      sent (GetOrderBook b selector cat n1)
        = sent (GetOrderBook b selector cat n2) -> n1 = n2)
  /\ ((1 <= n1 <= 100)%Z -> (1 <= n2 <= 100)%Z ->
      sent (GetMarketHistory b selector n1)
        = sent (GetMarketHistory b selector n2) -> n1 = n2).
Proof.
  rewrite !sent_GetOrderHistory, !sent_GetWithdrawalHistory,
    !sent_GetDepositHistory.
  split; [|split; [|split; [|split]]].
  - intros E. injection E as E.
    apply history_ressource_count in E; auto.
  - intros E. injection E as E.
    apply history_ressource_count in E; auto.
  - intros E. injection E as E.
    apply history_ressource_count in E; auto.
  - intros Hn1 Hn2.
    rewrite !sent_GetOrderBook_in_range by assumption.
    intros E. injection E as E.
    repeat first [apply append_cancel in E | injection E as E].
    now apply fmt_d_inj.
  - intros Hn1 Hn2.
    rewrite !sent_GetMarketHistory_in_range by assumption.
    intros E. injection E as E.
    repeat first [apply append_cancel in E | injection E as E].
    now apply fmt_d_inj.
Qed.

End Methods.

(** * The methods on concrete answers *)

#[local] Existing Instance entry.unmarshaler.

Example ToUpper_market : strings.ToUpper no_tables "btc-ltc" = "BTC-LTC".
Proof. reflexivity. Qed.

Example fmt_d_negative : fmt.d (-42) = "-42".
Proof. reflexivity. Qed.

Example FormatFloat_quantity :
  fixed8.FormatFloat 150000000 "f" 8 64 = "1.50000000"
  /\ fixed8.FormatFloat (-1000000) "f" 8 64 = "-0.01000000".
Proof. split; reflexivity. Qed.

Example envelope_keys_fold_case :
  json.Unmarshal
    (json.Text
       (json.Object
          [("Success", json.Bool true); ("MESSAGE", json.Str "ok")]))
    (zero : jsonResponse)
  = ({| Success := true; Message := "ok"; Result := json.nil |}, None).
Proof. reflexivity. Qed.

Example GetTicker_failure :
  returned
    (GetTicker no_tables (Ticker := entry.t)
       (sample.answering (sample.envelope false "INVALID_MARKET" json.Null))
       "btc-xyz")
  = ({| entry.Quantity := ""; entry.Rate := "" |},
     Some (errorString "INVALID_MARKET")).
Proof. reflexivity. Qed.

(** C1, at a concrete answer: the exchange refuses the key, and
    [GetOpenOrders] returns no orders and no error. *)
Lemma C1_GetOpenOrders_failure_unreported :
  returned
    (GetOpenOrders no_tables (Order := entry.t)
       (sample.answering
          (sample.envelope false "APIKEY_INVALID" (json.Array [])))
       "all")
  = ([], None).
Proof.
  exact (C1_GetOpenOrders_skips_handleErr no_tables (Order := entry.t)
           (sample.answering
              (sample.envelope false "APIKEY_INVALID" (json.Array [])))
           "all"
           (sample.envelope false "APIKEY_INVALID" (json.Array []))
           {| Success := false; Message := "APIKEY_INVALID";
              Result := json.Text (json.Array []) |}
           eq_refl eq_refl eq_refl).
Defined.

(** C2 fails at the history requests of the account: the count 0 sends no
    count at all, and the count 150 is sent as 150. *)
Lemma C2_account_history_not_clamped :
  sent (GetOrderHistory (Order := entry.t)
          (sample.answering json.nil) "all" 0)
    = [GET "account/getorderhistory" true]
  /\ strings.Contains "account/getorderhistory" "count=" = false
  /\ sent (GetOrderHistory (Order := entry.t)
             (sample.answering json.nil) "all" 150)
       = [GET "account/getorderhistory?count=150&" true]
  /\ sent (GetWithdrawalHistory (Withdrawal := entry.t)
             (sample.answering json.nil) "all" 150)
       = [GET "account/getwithdrawalhistory?count=150&" true]
  /\ sent (GetDepositHistory (Deposit := entry.t)
             (sample.answering json.nil) "all" (-7))
       = [GET "account/getdeposithistory?count=-7&" true].
Proof. repeat split. Qed.

(** C3 fails at the order-placement methods: [BuyLimit] puts a lower-case
    market into the path as it is, so the lower-case and the upper-case
    market give two different requests. *)
Lemma C3_BuyLimit_keeps_case :
  sent (BuyLimit fixed8.t fixed8.FormatFloat (sample.answering json.nil)
          "btc-ltc" 150000000 1000000)
    = [GET "market/buylimit?market=btc-ltc&quantity=1.50000000&rate=0.01000000"
           true]
  /\ sent (BuyLimit fixed8.t fixed8.FormatFloat (sample.answering json.nil)
             "BTC-LTC" 150000000 1000000)
       = [GET "market/buylimit?market=BTC-LTC&quantity=1.50000000&rate=0.01000000"
              true]
  /\ strings.Contains
       "market/buylimit?market=btc-ltc&quantity=1.50000000&rate=0.01000000"
       (strings.ToUpper no_tables "btc-ltc")
     = false.
Proof. repeat split. Qed.

(** C3, at a concrete identifier: the lower-case and the upper-case market
    give the same ticker request. *)
Lemma C3_GetTicker_same_request :
  sent (GetTicker no_tables (Ticker := entry.t)
          (sample.answering json.nil) "btc-ltc")
  = sent (GetTicker no_tables (Ticker := entry.t)
            (sample.answering json.nil) "BTC-LTC").
Proof.
  destruct (C3_identifier_case
              (Ticker := entry.t) (Orderb := entry.t) (Trade := entry.t)
              (Order := entry.t) (Balance := entry.t)
              (Address := entry.t) (Withdrawal := entry.t)
              (Deposit := entry.t)
              no_tables fixed8.t fixed8.FormatFloat
              (sample.answering json.nil) "btc-ltc" "" "both" 10
              150000000 1000000)
    as (_ & Hascii & Hsame & _).
  exact (proj1 (Hsame (Hascii eq_refl))).
Defined.

(** C4 fails for a selector other than "all": the history requests put a
    lower-case selector into the path as it is, and its upper-case form does
    not occur in the path. *)
Lemma C4_history_keeps_case :
  sent (GetOrderHistory (Order := entry.t)
          (sample.answering json.nil) "btc-ltc" 0)
    = [GET "account/getorderhistory?market=btc-ltc" true]
  /\ strings.Contains "account/getorderhistory?market=btc-ltc"
       (strings.ToUpper no_tables "btc-ltc") = false
  /\ sent (GetWithdrawalHistory (Withdrawal := entry.t)
             (sample.answering json.nil) "btc" 5)
       = [GET "account/getwithdrawalhistory?count=5&currency=btc" true]
  /\ strings.Contains "account/getwithdrawalhistory?count=5&currency=btc"
       (strings.ToUpper no_tables "btc") = false
  /\ sent (GetDepositHistory (Deposit := entry.t)
             (sample.answering json.nil) "btc" 5)
       = [GET "account/getdeposithistory?count=5&currency=btc" true]
  /\ strings.Contains "account/getdeposithistory?count=5&currency=btc"
       (strings.ToUpper no_tables "btc") = false.
Proof. repeat split. Qed.

(** C6, at a concrete answer with two bids and one ask. *)
Lemma C6_orderbook_scenario_run :
  sent (GetOrderBook no_tables (Orderb := entry.t)
          (sample.answering
             (sample.envelope true ""
                (json.Object
                   [("buy",
                     json.Array [sample.order "1.5" "0.0101";
                                 sample.order "3" "0.0100"]);
                    ("sell", json.Array [sample.order "2" "0.0102"])])))
          "btc-ltc" "both" 150)
    = [GET "public/getorderbook?market=BTC-LTC&type=both&depth=100" false]
  /\ returned
       (GetOrderBook no_tables (Orderb := entry.t)
          (sample.answering
             (sample.envelope true ""
                (json.Object
                   [("buy",
                     json.Array [sample.order "1.5" "0.0101";
                                 sample.order "3" "0.0100"]);
                    ("sell", json.Array [sample.order "2" "0.0102"])])))
          "btc-ltc" "both" 150)
     = ({| Buy := [ {| entry.Quantity := "1.5"; entry.Rate := "0.0101" |};
                    {| entry.Quantity := "3"; entry.Rate := "0.0100" |} ];
           Sell := [ {| entry.Quantity := "2"; entry.Rate := "0.0102" |} ] |},
        None).
Proof.
  exact (C6_orderbook_scenario no_tables (Orderb := entry.t)
           (sample.answering
              (sample.envelope true ""
                 (json.Object
                    [("buy",
                      json.Array [sample.order "1.5" "0.0101";
                                  sample.order "3" "0.0100"]);
                     ("sell", json.Array [sample.order "2" "0.0102"])])))
           (sample.envelope true ""
              (json.Object
                 [("buy",
                   json.Array [sample.order "1.5" "0.0101";
                               sample.order "3" "0.0100"]);
                  ("sell", json.Array [sample.order "2" "0.0102"])]))
           {| Success := true; Message := "";
              Result :=
                json.Text
                  (json.Object
                     [("buy",
                       json.Array [sample.order "1.5" "0.0101";
                                   sample.order "3" "0.0100"]);
                      ("sell", json.Array [sample.order "2" "0.0102"])]) |}
           [sample.order "1.5" "0.0101"; sample.order "3" "0.0100"]
           [sample.order "2" "0.0102"]
           eq_refl eq_refl eq_refl eq_refl).
Defined.

(** C7, at a concrete answer: each of the five methods returns the
    identifier inside the wrapper. *)
Lemma C7_placements_return_identifier :
  returned
    (BuyLimit fixed8.t fixed8.FormatFloat
       (sample.answering (sample.identified "abc-123"))
       "BTC-LTC" 150000000 1000000)
  = ("abc-123", None)
  /\ returned
       (BuyMarket fixed8.t fixed8.FormatFloat
          (sample.answering (sample.identified "abc-123"))
          "BTC-LTC" 150000000)
     = ("abc-123", None)
  /\ returned
       (SellLimit fixed8.t fixed8.FormatFloat
          (sample.answering (sample.identified "abc-123"))
          "BTC-LTC" 150000000 1000000)
     = ("abc-123", None)
  /\ returned
       (SellMarket fixed8.t fixed8.FormatFloat
          (sample.answering (sample.identified "abc-123"))
          "BTC-LTC" 150000000)
     = ("abc-123", None)
  /\ returned
       (Withdraw no_tables fixed8.t fixed8.FormatFloat
          (sample.answering (sample.identified "abc-123"))
          "1BoatSLRHtKNngkdXEeobR76b53LETtpyT" "btc" 150000000)
     = ("abc-123", None).
Proof.
  pose proof
    (fun p =>
       C7_placement_returns_identifier no_tables fixed8.t
         fixed8.FormatFloat
         (sample.answering (sample.identified "abc-123")) p
         (sample.identified "abc-123")
         {| Success := true; Message := "";
            Result :=
              json.Text (json.Object [("uuid", json.Str "abc-123")]) |}
         "abc-123" eq_refl eq_refl eq_refl) as Hplace.
  split; [|split; [|split; [|split]]].
  - destruct (Hplace (place_BuyLimit fixed8.t "BTC-LTC" 150000000 1000000))
      as [req [_ Hreturned]].
    exact (Hreturned eq_refl).
  - destruct (Hplace (place_BuyMarket fixed8.t "BTC-LTC" 150000000))
      as [req [_ Hreturned]].
    exact (Hreturned eq_refl).
  - destruct (Hplace (place_SellLimit fixed8.t "BTC-LTC" 150000000 1000000))
      as [req [_ Hreturned]].
    exact (Hreturned eq_refl).
  - destruct (Hplace (place_SellMarket fixed8.t "BTC-LTC" 150000000))
      as [req [_ Hreturned]].
    exact (Hreturned eq_refl).
  - destruct (Hplace
                (place_Withdraw fixed8.t "1BoatSLRHtKNngkdXEeobR76b53LETtpyT"
                   "btc" 150000000))
      as [req [_ Hreturned]].
    exact (Hreturned eq_refl).
Defined.

(** C8 fails when the [result] field is well formed but does not fit the
    payload type: [GetOrderBook] returns the bids already decoded together
    with the error for the asks, and [BuyLimit] returns an identifier
    together with the error for a second [uuid] member. *)
Lemma C8_partial_payload_with_error :
  returned
    (GetOrderBook no_tables (Orderb := entry.t)
       (sample.answering
          (sample.envelope true ""
             (json.Object
                [("buy", json.Array [sample.order "1.5" "0.0101"]);
                 ("sell", json.Str "none")])))
       "BTC-LTC" "both" 10)
  = ({| Buy := [ {| entry.Quantity := "1.5"; entry.Rate := "0.0101" |} ];
        Sell := [] |},
     Some (UnmarshalTypeError "string" "[]entry"))
  /\ returned
       (BuyLimit fixed8.t fixed8.FormatFloat
          (sample.answering
             (sample.envelope true ""
                (json.Object
                   [("uuid", json.Str "abc-123");
                    ("uuid", json.Number "7")])))
          "BTC-LTC" 150000000 1000000)
     = ("abc-123", Some (UnmarshalTypeError "number" "string")).
Proof. split; reflexivity. Qed.

(** C8, at concrete answers: an envelope without a [result] member, and
    two envelopes whose [result] is of the wrong kind. *)
Lemma C8_unfit_results :
  returned
    (GetOrderBook no_tables (Orderb := entry.t)
       (sample.answering
          (json.Text
             (json.Object
                [("success", json.Bool true); ("message", json.Str "")])))
       "BTC-LTC" "both" 10)
  = ({| Buy := []; Sell := [] |},
     Some (SyntaxError "unexpected end of JSON input"))
  /\ (exists type_ : string,
         returned
           (GetMarkets (Market := entry.t)
              (sample.answering
                 (sample.envelope true "" (json.Str "none"))))
         = ([], Some (UnmarshalTypeError "string" type_)))
  /\ (exists type_ : string,
         returned
           (BuyLimit fixed8.t fixed8.FormatFloat
              (sample.answering
                 (sample.envelope true "" (json.Number "7")))
              "BTC-LTC" 150000000 1000000)
         = ("", Some (UnmarshalTypeError "number" type_))).
Proof.
  pose proof
    (fun T (o : operation fixed8.t T) Hpayload r response Henvelope Hsuccess =>
       C8_unfit_result_leaves_payload
         (Market := entry.t) (Ticker := entry.t)
         (MarketSummary := entry.t) (Orderb := entry.t)
         (Trade := entry.t) (Order := entry.t) (Balance := entry.t)
         (Address := entry.t) (Withdrawal := entry.t)
         (Deposit := entry.t)
         no_tables fixed8.t fixed8.FormatFloat o
         (sample.answering r) r response Hpayload Henvelope Hsuccess)
    as Hunfit.
  split; [|split].
  - destruct (Hunfit _ (op_GetOrderBook fixed8.t "BTC-LTC" "both" 10)
                eq_refl
                (json.Text
                   (json.Object
                      [("success", json.Bool true);
                       ("message", json.Str "")]))
                {| Success := true; Message := ""; Result := json.nil |}
                eq_refl eq_refl)
      as [req [_ Hreturned]].
    exact (proj1 (Hreturned eq_refl) _ eq_refl).
  - destruct (Hunfit _ (op_GetMarkets fixed8.t) eq_refl
                (sample.envelope true "" (json.Str "none"))
                {| Success := true; Message := "";
                   Result := json.Text (json.Str "none") |}
                eq_refl eq_refl)
      as [req [_ Hreturned]].
    exact (proj2 (Hreturned eq_refl) (json.Str "none") eq_refl eq_refl).
  - destruct (Hunfit _ (op_BuyLimit fixed8.t "BTC-LTC" 150000000 1000000)
                eq_refl
                (sample.envelope true "" (json.Number "7"))
                {| Success := true; Message := "";
                   Result := json.Text (json.Number "7") |}
                eq_refl eq_refl)
      as [req [_ Hreturned]].
    exact (proj2 (Hreturned eq_refl) (json.Number "7") eq_refl eq_refl).
Defined.

(** The transport times out: [GetTicker] returns the error of the transport
    and an undecoded ticker. *)
Lemma transport_error_run :
  returned
    (GetTicker no_tables (Ticker := entry.t)
       (outage.failing (clientError "timeout")) "btc-ltc")
  = ({| entry.Quantity := ""; entry.Rate := "" |},
     Some (clientError "timeout")).
Proof.
  exact (transport_error_returned
           (Market := entry.t) (Ticker := entry.t)
           (MarketSummary := entry.t) (Orderb := entry.t)
           (Trade := entry.t) (Order := entry.t) (Balance := entry.t)
           (Address := entry.t) (Withdrawal := entry.t)
           (Deposit := entry.t)
           no_tables fixed8.t fixed8.FormatFloat
           (op_GetTicker fixed8.t "btc-ltc")
           (outage.failing (clientError "timeout"))
           json.nil (clientError "timeout") eq_refl).
Defined.

(** The body has a string where the envelope has a boolean: [SellLimit]
    returns the error of the decoder and no identifier, although the body
    carries one. *)
Lemma envelope_error_run :
  returned
    (SellLimit fixed8.t fixed8.FormatFloat
       (sample.answering
          (json.Text
             (json.Object
                [("success", json.Str "yes");
                 ("result",
                  json.Object [("uuid", json.Str "abc-123")])])))
       "BTC-LTC" 150000000 1000000)
  = ("", Some (UnmarshalTypeError "string" "bool")).
Proof.
  exact (envelope_error_returned
           (Market := entry.t) (Ticker := entry.t)
           (MarketSummary := entry.t) (Orderb := entry.t)
           (Trade := entry.t) (Order := entry.t) (Balance := entry.t)
           (Address := entry.t) (Withdrawal := entry.t)
           (Deposit := entry.t)
           no_tables fixed8.t fixed8.FormatFloat
           (op_SellLimit fixed8.t "BTC-LTC" 150000000 1000000)
           (sample.answering
              (json.Text
                 (json.Object
                    [("success", json.Str "yes");
                     ("result",
                      json.Object [("uuid", json.Str "abc-123")])])))
           (json.Text
              (json.Object
                 [("success", json.Str "yes");
                  ("result",
                   json.Object [("uuid", json.Str "abc-123")])]))
           {| Success := false; Message := "";
              Result :=
                json.Text (json.Object [("uuid", json.Str "abc-123")]) |}
           (UnmarshalTypeError "string" "bool")
           eq_refl eq_refl).
Defined.

(** The exchange refuses a withdrawal: [Withdraw] returns the message of the
    envelope as its error and no identifier, whatever [result] holds. *)
Lemma api_failure_run :
  fst (returned
         (Withdraw no_tables fixed8.t fixed8.FormatFloat
            (sample.answering
               (sample.envelope false "INSUFFICIENT_FUNDS"
                  (json.Object [("uuid", json.Str "abc-123")])))
            "1BoatSLRHtKNngkdXEeobR76b53LETtpyT" "btc" 150000000))
  = ""
  /\ snd (returned
            (Withdraw no_tables fixed8.t fixed8.FormatFloat
               (sample.answering
                  (sample.envelope false "INSUFFICIENT_FUNDS"
                     (json.Object [("uuid", json.Str "abc-123")])))
               "1BoatSLRHtKNngkdXEeobR76b53LETtpyT" "btc" 150000000))
     = Some (errorString "INSUFFICIENT_FUNDS")
  /\ option_map Error
       (snd (returned
               (Withdraw no_tables fixed8.t fixed8.FormatFloat
                  (sample.answering
                     (sample.envelope false "INSUFFICIENT_FUNDS"
                        (json.Object [("uuid", json.Str "abc-123")])))
                  "1BoatSLRHtKNngkdXEeobR76b53LETtpyT" "btc" 150000000)))
     = Some "INSUFFICIENT_FUNDS".
Proof.
  exact (api_failure_returned
           (Market := entry.t) (Ticker := entry.t)
           (MarketSummary := entry.t) (Orderb := entry.t)
           (Trade := entry.t) (Order := entry.t) (Balance := entry.t)
           (Address := entry.t) (Withdrawal := entry.t)
           (Deposit := entry.t)
           no_tables fixed8.t fixed8.FormatFloat
           (op_Withdraw fixed8.t "1BoatSLRHtKNngkdXEeobR76b53LETtpyT"
              "btc" 150000000)
           (sample.answering
              (sample.envelope false "INSUFFICIENT_FUNDS"
                 (json.Object [("uuid", json.Str "abc-123")])))
           (sample.envelope false "INSUFFICIENT_FUNDS"
              (json.Object [("uuid", json.Str "abc-123")]))
           {| Success := false; Message := "INSUFFICIENT_FUNDS";
              Result :=
                json.Text (json.Object [("uuid", json.Str "abc-123")]) |}
           eq_refl eq_refl eq_refl eq_refl).
Defined.

(** [GetOpenOrders] on an envelope with one open order. *)
Lemma GetOpenOrders_run :
  returned
    (GetOpenOrders no_tables (Order := entry.t)
       (sample.answering
          (sample.envelope true ""
             (json.Array [sample.order "1.5" "0.0101"])))
       "btc-ltc")
  = ([ {| entry.Quantity := "1.5"; entry.Rate := "0.0101" |} ], None).
Proof.
  exact (GetOpenOrders_as_decoded_once no_tables (Order := entry.t)
           (sample.answering
              (sample.envelope true ""
                 (json.Array [sample.order "1.5" "0.0101"])))
           "btc-ltc"
           (sample.envelope true ""
              (json.Array [sample.order "1.5" "0.0101"]))
           eq_refl).
Defined.

(** The exchange answers [BuyMarket] with an identifier under another key:
    the method returns the empty string and no error. *)
Lemma placement_without_uuid_run :
  returned
    (BuyMarket fixed8.t fixed8.FormatFloat
       (sample.answering
          (sample.envelope true ""
             (json.Object [("id", json.Str "abc-123")])))
       "BTC-LTC" 150000000)
  = ("", None).
Proof.
  exact (placement_without_uuid no_tables fixed8.t fixed8.FormatFloat
           (sample.answering
              (sample.envelope true ""
                 (json.Object [("id", json.Str "abc-123")])))
           (place_BuyMarket fixed8.t "BTC-LTC" 150000000)
           (sample.envelope true ""
              (json.Object [("id", json.Str "abc-123")]))
           {| Success := true; Message := "";
              Result :=
                json.Text (json.Object [("id", json.Str "abc-123")]) |}
           (json.Object [("id", json.Str "abc-123")])
           eq_refl eq_refl eq_refl eq_refl eq_refl).
Defined.

(** [GetMarketHistory] on an array whose second element is not an object:
    two trades come back, the second one undecoded, with the error for
    it. *)
Lemma listing_run :
  returned
    (GetMarketHistory no_tables (Trade := entry.t)
       (sample.answering
          (sample.envelope true ""
             (json.Array [sample.order "1.5" "0.0101"; json.Str "junk"])))
       "btc-ltc" 2)
  = ([ {| entry.Quantity := "1.5"; entry.Rate := "0.0101" |};
       {| entry.Quantity := ""; entry.Rate := "" |} ],
     Some (UnmarshalTypeError "string" "entry")).
Proof.
  exact (proj1
           (proj1
              (listing_follows_array
                 (Market := entry.t) (MarketSummary := entry.t)
                 (Trade := entry.t) (Order := entry.t)
                 (Withdrawal := entry.t) (Deposit := entry.t)
                 no_tables
                 (list_GetMarketHistory "btc-ltc" 2)
                 (sample.answering
                    (sample.envelope true ""
                       (json.Array
                          [sample.order "1.5" "0.0101"; json.Str "junk"])))
                 (sample.envelope true ""
                    (json.Array
                       [sample.order "1.5" "0.0101"; json.Str "junk"]))
                 {| Success := true; Message := "";
                    Result :=
                      json.Text
                        (json.Array
                           [sample.order "1.5" "0.0101";
                            json.Str "junk"]) |}
                 eq_refl eq_refl eq_refl)
              [sample.order "1.5" "0.0101"; json.Str "junk"] eq_refl)).
Defined.
